(** * Flask-Micropub: IndieAuth / Micropub client flows

    A shallow embedding of [flask_micropub.py] (class [MicropubClient] and
    class [AuthResponse]) together with the properties of its
    specification.

    Python values are modelled as follows.
    - A value that is either [None] or a [str] is an [option string];
      Python truthiness ([if x], [not x], [x or y]) is {!truthy}.
    - A [dict] is a [gmap]; [d.get(k)] and [k in d] are lookups.
    - The Flask session, the outbound HTTP traffic and the random source
      are threaded through an explicit state ({!World}); a raised Python
      exception is the left summand of the result.
    - Everything the module imports (requests, bs4, urllib, Flask's
      routing) is a field of {!Env}: the code is verified for every
      behaviour of these collaborators. *)

From Stdlib Require Import ZArith Ascii String List.
From stdpp Require Import base option strings list gmap fin_maps pretty.

Open Scope string_scope.
Open Scope Z_scope.

(* ===================================================================== *)
(** ** Python string primitives used by the module *)
(* ===================================================================== *)

Module PyStr.

(** [c in s] for a one-character needle. *)
Fixpoint contains (c : ascii) (s : string) : bool :=
  match s with
  | EmptyString => false
  | String a rest => if Ascii.eqb a c then true else contains c rest
  end.

(** The text before and after the first occurrence of [c], if any. *)
Fixpoint cut (c : ascii) (s : string) : option (string * string) :=
  match s with
  | EmptyString => None
  | String a rest =>
      if Ascii.eqb a c then Some (EmptyString, rest)
      else match cut c rest with
           | Some (before, after) => Some (String a before, after)
           | None => None
           end
  end.

(** [s.split(c, 1)]: at most one split, at the first occurrence. *)
Definition split1 (c : ascii) (s : string) : list string :=
  match cut c s with
  | Some (before, after) => [before; after]
  | None => [s]
  end.

(** [s.startswith(p)]. *)
Definition startswith (s p : string) : bool := String.prefix p s.

(** The one-character string holding a double quote (code point 34). *)
Definition dquote : string := String (ascii_of_nat 34) EmptyString.

End PyStr.

(** Truthiness of a value that is [None] or a string. *)
Definition truthy (v : option string) : bool :=
  match v with
  | None => false
  | Some s => negb (String.eqb s "")
  end.

(** Python's [a or b] on such values. *)
Definition py_or (a b : option string) : option string :=
  if truthy a then a else b.

(** Truthiness of a value that is [None] or a list. *)
Definition truthy_list {A} (v : option (list A)) : bool :=
  match v with
  | Some (_ :: _) => true
  | _ => false
  end.

(* ===================================================================== *)
(** ** Exceptions, state and the monad of the handlers *)
(* ===================================================================== *)

(** The Python exceptions that can leave the module. [TransportError]
    stands for whatever [requests] raises (connection refused, DNS
    failure, an invalid URL). *)
Inductive PyExc : Type :=
| TypeError (msg : string)
| IndexError
| KeyError (key : string)
| ValueError
| BuildError
| TransportError (detail : string).

(** The part of a [requests.Response] the module reads: [status_code],
    [text] and [links] (the parsed Link headers: relation name to the
    dictionary of that link, whose ["url"] entry is its target). *)
Record Response : Type := mkResponse {
  status_code : Z;
  text : string;
  links : gmap string (gmap string string)
}.

(** An outbound HTTP call. The URL of a GET is whatever the caller
    passed, which may be [None]; form data maps names to values that may
    be [None]. *)
Inductive HttpCall : Type :=
| GET (url : option string)
| POST (url : string) (data : list (string * option string)).

(** A [bs4] tag, reduced to its attribute dictionary. *)
Record Tag : Type := mkTag { attrs : gmap string string }.

(** [flask.request] as the handlers see it: the query arguments (a
    multi-dict, kept in order) and the name of the matched endpoint. *)
Record Request : Type := mkRequest {
  args : list (string * string);
  endpoint : string
}.

(** The two view functions the extension registers. *)
Inductive ViewFunc : Type :=
| AuthenticatedView
| AuthorizedView
| OtherView (n : nat).

#[global] Instance ViewFunc_eq_dec : EqDecision ViewFunc.
Proof. solve_decision. Defined.

(** The mutable world: the Flask session, the log of outbound HTTP calls
    (oldest first) and the number of UUIDs drawn so far. *)
Record World : Type := mkWorld {
  session : gmap string string;
  http_log : list HttpCall;
  uuid_drawn : nat
}.

(** The collaborators. The transport answers a call knowing the calls
    made before it, so its answers may change over time. *)
Record Env : Type := mkEnv {
  (** [self.client_id] *)
  client_id : option string;
  (** [requests.get(url)] *)
  requests_get : list HttpCall -> option string -> PyExc + Response;
  (** [requests.post(url, data=data)] *)
  requests_post :
    list HttpCall -> string -> list (string * option string) ->
    PyExc + Response;
  (** [bs4.BeautifulSoup(markup).find('link', {'rel': rel})] *)
  soup_find_link : string -> string -> option Tag;
  (** [urllib.parse.parse_qs] *)
  parse_qs : string -> gmap string (list string);
  (** [urllib.parse.urlencode] of a dict, in insertion order *)
  urlencode : list (string * option string) -> string;
  (** [flask.url_for(endpoint, _external=True)] for an existing endpoint *)
  url_for : string -> string;
  (** [flask.current_app.view_functions.items()] *)
  view_functions : list (string * ViewFunc);
  (** the n-th value of [uuid.uuid4().hex] *)
  uuid4_hex : nat -> string;
  (** [str(d)] of a parsed query-string dict *)
  str_of_qs : gmap string (list string) -> string
}.

(** Computations: state passing with exceptions; the state survives a
    raise. *)
Definition M (A : Type) : Type := World -> (PyExc + A) * World.

Definition ret {A} (a : A) : M A := fun w => (inr a, w).

Definition raise {A} (e : PyExc) : M A := fun w => (inl e, w).

Definition bind {A B} (m : M A) (k : A -> M B) : M B :=
  fun w =>
    match m w with
    | (inr a, w') => k a w'
    | (inl e, w') => (inl e, w')
    end.

#[global] Instance M_ret : MRet M := @ret.
#[global] Instance M_bind : MBind M := fun A B k m => bind m k.

(** Lift a pure fallible step. *)
Definition lift {A} (r : PyExc + A) : M A := fun w => (r, w).

(** [flask.session.get(key)] *)
Definition session_get (key : string) : M (option string) :=
  fun w => (inr (session w !! key), w).

(** [flask.session[key] = value] *)
Definition session_set (key value : string) : M unit :=
  fun w => (inr tt, mkWorld (<[key := value]> (session w))
                            (http_log w) (uuid_drawn w)).

(** Record an outbound call at the end of the log. *)
Definition log_call (c : HttpCall) (w : World) : World :=
  mkWorld (session w) (http_log w ++ [c])%list (uuid_drawn w).

Definition http_get (env : Env) (url : option string) : M Response :=
  fun w => (requests_get env (http_log w) url, log_call (GET url) w).

Definition http_post (env : Env) (url : string)
    (data : list (string * option string)) : M Response :=
  fun w => (requests_post env (http_log w) url data,
            log_call (POST url data) w).

(** [uuid.uuid4().hex] *)
Definition uuid4 (env : Env) : M string :=
  fun w => (inr (uuid4_hex env (uuid_drawn w)),
            mkWorld (session w) (http_log w) (S (uuid_drawn w))).

(** [seq[0]] where [seq] came from [dict.get]: [None] is not
    subscriptable, an empty list has no first element. *)
Definition getitem0 (v : option (list string)) : PyExc + string :=
  match v with
  | None => inl (TypeError "'NoneType' object is not subscriptable")
  | Some [] => inl IndexError
  | Some (x :: _) => inr x
  end.

(** [tag[key]] on a bs4 tag. *)
Definition tag_getitem (t : Tag) (key : string) : PyExc + string :=
  match attrs t !! key with
  | Some v => inr v
  | None => inl (KeyError key)
  end.

(** [request.args.get(key)]: the first value of a multi-dict. *)
Fixpoint args_get (l : list (string * string)) (key : string)
    : option string :=
  match l with
  | [] => None
  | (k, v) :: rest => if String.eqb k key then Some v else args_get rest key
  end.

(* ===================================================================== *)
(** ** class AuthResponse *)
(* ===================================================================== *)

Record AuthResponse : Type := mkAuthResponse {
  me : option string;
  micropub_endpoint : option string;
  access_token : option string;
  next_url : option string;
  state : option string;
  scope : option string;
  error : option string
}.

(** [AuthResponse.__init__]; every keyword defaults to [None] at the call
    sites, which here pass [None] explicitly. *)
Definition AuthResponse_init
    (me micropub_endpoint access_token state scope error : option string)
    : AuthResponse :=
  {| me := me;
     micropub_endpoint := micropub_endpoint;
     access_token := access_token;
     next_url := state;
     state := state;
     scope := scope;
     error := error |}.

(* ===================================================================== *)
(** ** class MicropubClient *)
(* ===================================================================== *)

Definition DEFAULT_AUTH_URL : string := "https://indieauth.com/auth".

(** The session key of the CSRF token. *)
Definition CSRF_KEY : string := "_micropub_csrf_token".

(** ['{}|{}'.format(csrf_token, state or '')] *)
Definition wrap_state (csrf_token : string) (state : option string)
    : string :=
  csrf_token +:+ "|" +:+ default "" (py_or state (Some "")).

(** [a, b = seq] *)
Definition unpack2 (l : list string) : PyExc + (string * string) :=
  match l with
  | [a; b] => inr (a, b)
  | _ => inl ValueError
  end.

(** The head of both handlers:
<<
    if wrapped_state and '|' in wrapped_state:
        csrf_token, state = wrapped_state.split('|', 1)
    else:
        csrf_token = state = None
>> *)
Definition unwrap_state (wrapped_state : option string)
    : PyExc + (option string * option string) :=
  match wrapped_state with
  | Some ws =>
      if truthy (Some ws) && PyStr.contains "|" ws then
        match unpack2 (PyStr.split1 "|" ws) with
        | inr (csrf_token, state) => inr (Some csrf_token, Some state)
        | inl e => inl e
        end
      else inr (None, None)
  | None => inr (None, None)
  end.

(** [x != y] on values that are [None] or strings. *)
Definition py_ne (x y : option string) : bool := negb (bool_decide (x = y)).

(** [me_response.links.get(rel, {}).get('url')] *)
Definition header_link (r : Response) (rel : string) : option string :=
  default ∅ (links r !! rel) !! "url".

(** [link and link['href']] where [link] is a tag or [None]; a tag is
    always truthy. *)
Definition and_href (link : option Tag) : PyExc + option string :=
  match link with
  | None => inr None
  | Some t =>
      match tag_getitem t "href" with
      | inr h => inr (Some h)
      | inl e => inl e
      end
  end.

(** The statement both call sites share:
<<
    if not auth_url:
        auth_url = DEFAULT_AUTH_URL
>> *)
Definition auth_url_or_default (auth_url : option string) : string :=
  if negb (truthy auth_url) then DEFAULT_AUTH_URL else default "" auth_url.

(** The message ['missing "me" in response'], whose [me] stands between
    double quotes. *)
Definition MISSING_ME : string :=
  "missing " +:+ PyStr.dquote +:+ "me" +:+ PyStr.dquote +:+ " in response".

(** [str(response)] of a [requests.Response]. *)
Definition str_of_response (r : Response) : string :=
  "<Response [" +:+ pretty (status_code r) +:+ "]>".

(** The methods of the client. Calls to [logger.debug] are left out:
    they touch neither the session nor the outbound traffic, and the
    value the view returns does not depend on them. [flask.redirect] is
    represented by its target URL. *)
Section Client.

Variable env : Env.

Definition _discover_endpoints (me : option string)
    : M (option string * option string * option string) :=
  me_response ← http_get env me;
  if negb (status_code me_response =? 200) then
    mret (None, None, None)
  else
    let auth_endpoint := header_link me_response "authorization_endpoint" in
    let token_endpoint := header_link me_response "token_endpoint" in
    let micropub_endpoint := header_link me_response "micropub" in
    if negb (truthy auth_endpoint) || negb (truthy token_endpoint)
       || negb (truthy micropub_endpoint)
    then
      let soup := soup_find_link env (text me_response) in
      auth_endpoint ←
        (if negb (truthy auth_endpoint)
         then lift (and_href (soup "authorization_endpoint"))
         else mret auth_endpoint);
      token_endpoint ←
        (if negb (truthy token_endpoint)
         then lift (and_href (soup "token_endpoint"))
         else mret token_endpoint);
      micropub_endpoint ←
        (if negb (truthy micropub_endpoint)
         then lift (and_href (soup "micropub"))
         else mret micropub_endpoint);
      mret (auth_endpoint, token_endpoint, micropub_endpoint)
    else
      mret (auth_endpoint, token_endpoint, micropub_endpoint).

(** [flask_endpoint_for_function]: the first endpoint whose view
    function is [func]; falls off the loop with [None]. *)
Fixpoint endpoint_of (items : list (string * ViewFunc)) (func : ViewFunc)
    : option string :=
  match items with
  | [] => None
  | (endpt, view_func) :: rest =>
      if bool_decide (func = view_func) then Some endpt
      else endpoint_of rest func
  end.

Definition flask_endpoint_for_function (func : ViewFunc) : option string :=
  endpoint_of (view_functions env) func.

(** [flask.url_for(e, _external=True)] where [e] may be [None]: Flask
    slices the endpoint name first, which [None] does not support. *)
Definition url_for_opt (e : option string) : M string :=
  match e with
  | Some name => mret (url_for env name)
  | None => raise (TypeError "'NoneType' object is not subscriptable")
  end.

(** The normalisation at the head of [_start_indieauth]. *)
Definition normalize_me (me : string) : string :=
  if negb (PyStr.startswith me "http://")
     && negb (PyStr.startswith me "https://")
  then "http://" +:+ me
  else me.

(** Returns the target of the [flask.redirect]. *)
Definition _start_indieauth (me redirect_url : string)
    (state scope : option string) : M string :=
  let me := normalize_me me in
  '(auth_url, token_url, micropub_url) ← _discover_endpoints (Some me);
  let auth_url := auth_url_or_default auth_url in
  csrf_token ← uuid4 env;
  _ ← session_set CSRF_KEY csrf_token;
  let auth_params :=
    [ ("me", Some me);
      ("client_id", client_id env);
      ("redirect_uri", Some redirect_url);
      ("state", Some (wrap_state csrf_token state)) ] in
  let auth_params :=
    if truthy scope then (auth_params ++ [("scope", scope)])%list
    else auth_params in
  let auth_url := auth_url +:+ "?" +:+ urlencode env auth_params in
  mret auth_url.

Definition authenticate (me : string) (state next_url : option string)
    : M string :=
  redirect_url ←
    url_for_opt (flask_endpoint_for_function AuthenticatedView);
  _start_indieauth me redirect_url (py_or state next_url) None.

Definition authorize (me : string) (state next_url scope : option string)
    : M string :=
  redirect_url ←
    url_for_opt (flask_endpoint_for_function AuthorizedView);
  _start_indieauth me redirect_url (py_or state next_url) scope.

(** The form posted to the authorization endpoint ([auth_data]). *)
Definition auth_data (request : Request)
    : list (string * option string) :=
  [ ("code", args_get (args request) "code");
    ("client_id", client_id env);
    ("redirect_uri", Some (url_for env (endpoint request)));
    ("state", args_get (args request) "state") ].

(** The form posted to the token endpoint ([token_data]). *)
Definition token_data (request : Request)
    : list (string * option string) :=
  [ ("code", args_get (args request) "code");
    ("me", args_get (args request) "me");
    ("redirect_uri", Some (url_for env (endpoint request)));
    ("client_id", client_id env);
    ("state", args_get (args request) "state") ].

Definition _handle_authenticate_response (request : Request)
    : M AuthResponse :=
  let wrapped_state := args_get (args request) "state" in
  let me := args_get (args request) "me" in
  '(csrf_token, state) ← lift (unwrap_state wrapped_state);
  if negb (truthy csrf_token) then
    mret (AuthResponse_init None None None state None
            (Some "no CSRF token in response"))
  else
    stored ← session_get CSRF_KEY;
    if py_ne csrf_token stored then
      mret (AuthResponse_init None None None state None
              (Some "mismatched CSRF token"))
    else
      eps ← _discover_endpoints me;
      let auth_url := eps.1.1 in
      let auth_url := auth_url_or_default auth_url in
      response ← http_post env auth_url (auth_data request);
      let rdata := parse_qs env (text response) in
      if negb (status_code response =? 200) then
        let error_vals := rdata !! "error" in
        let error_descs := rdata !! "error_description" in
        ev ← (if truthy_list error_vals then lift (getitem0 error_vals)
              else mret "Unknown Error");
        ed ← (if truthy_list error_descs then lift (getitem0 error_descs)
              else mret "Unknown Error");
        mret (AuthResponse_init None None None state None
                (Some ("authorization failed. " +:+ ev +:+ ": " +:+ ed)))
      else if bool_decide (rdata !! "me" = None) then
        mret (AuthResponse_init None None None state None
                (Some MISSING_ME))
      else
        confirmed_me ← lift (getitem0 (rdata !! "me"));
        mret (AuthResponse_init (Some confirmed_me) None None state
                None None).

Definition _handle_authorize_response (request : Request)
    : M AuthResponse :=
  let wrapped_state := args_get (args request) "state" in
  let me := args_get (args request) "me" in
  '(csrf_token, state) ← lift (unwrap_state wrapped_state);
  if negb (truthy csrf_token) then
    mret (AuthResponse_init None None None state None
            (Some "no CSRF token in response"))
  else
    stored ← session_get CSRF_KEY;
    if py_ne csrf_token stored then
      mret (AuthResponse_init None None None state None
              (Some "mismatched CSRF token"))
    else
      eps ← _discover_endpoints me;
      let token_url := eps.1.2 in
      let micropub_url := eps.2 in
      if negb (truthy token_url) || negb (truthy micropub_url) then
        mret (AuthResponse_init me None None state None
                (Some "no micropub endpoint found."))
      else
        token_response ←
          http_post env (default "" token_url) (token_data request);
        if negb (status_code token_response =? 200) then
          mret (AuthResponse_init me None None state None
                  (Some ("bad response from token endpoint: "
                         +:+ str_of_response token_response)))
        else
          let tdata := parse_qs env (text token_response) in
          if bool_decide (tdata !! "access_token" = None) then
            mret (AuthResponse_init me None None state None
                    (Some ("response from token endpoint missing access_token: "
                           +:+ str_of_qs env tdata)))
          else
            access_token ← lift (getitem0 (tdata !! "access_token"));
            confirmed_me ← lift (getitem0 (tdata !! "me"));
            confirmed_scope ← lift (getitem0 (tdata !! "scope"));
            mret (AuthResponse_init (Some confirmed_me) micropub_url
                    (Some access_token) state (Some confirmed_scope)
                    None).

End Client.

(* ===================================================================== *)
(** ** Construction of the client *)
(* ===================================================================== *)

Module MicropubClient.

(** A [flask.Flask] application, of which only [name] is read. *)
Record App : Type := mkApp { name : string }.

(** The attributes [__init__] sets. *)
Record t : Type := mk {
  app : option App;
  client_id : option string
}.

(** [init_app]: the identifier is assigned only while none is set. *)
Definition init_app (self : t) (app0 : App) (client_id0 : option string)
    : t :=
  if negb (truthy (client_id self)) then
    if truthy client_id0 then mk (app self) client_id0
    else mk (app self) (Some (name app0))
  else self.

Definition __init__ (app0 : option App) (client_id0 : option string) : t :=
  let self := mk app0 client_id0 in
  match app0 with
  | Some a => init_app self a client_id0
  | None => self
  end.

End MicropubClient.

(* ===================================================================== *)
(** ** Vocabulary of the specification *)
(* ===================================================================== *)

(** The three relations discovery looks for, and the slot of the result
    each one fills. *)
Inductive Relation : Type := RelAuthorization | RelToken | RelMicropub.

Definition rel_name (r : Relation) : string :=
  match r with
  | RelAuthorization => "authorization_endpoint"
  | RelToken => "token_endpoint"
  | RelMicropub => "micropub"
  end.

Definition slot (r : Relation)
    (eps : option string * option string * option string)
    : option string :=
  match r with
  | RelAuthorization => eps.1.1
  | RelToken => eps.1.2
  | RelMicropub => eps.2
  end.

(** The callback passes CSRF validation: its [state] unwraps to a
    token that is present and equal to the one stored in the session. *)
Definition csrf_passes (request : Request) (w : World)
    (tok : string) (st : option string) : Prop :=
  unwrap_state (args_get (args request) "state") = inr (Some tok, st) /\
  tok <> "" /\
  session w !! CSRF_KEY = Some tok.

(** Every value a computation can return satisfies [P]. *)
Definition returns_only {A} (P : A -> Prop) (m : M A) : Prop :=
  forall w a, (m w).1 = inr a -> P a.

(** A computation leaves the session as it found it, whether it returns
    or raises. *)
Definition keeps_session {A} (m : M A) : Prop :=
  forall w, session (m w).2 = session w.

(** The outbound calls a computation adds to the log are [calls]. *)
Definition sends {A} (m : M A) (w : World) (calls : list HttpCall) : Prop :=
  http_log (m w).2 = (http_log w ++ calls)%list.

(** What [parse_qs] guarantees: a name that is present has at least one
    value. *)
Definition qs_values_nonempty (env : Env) : Prop :=
  forall body key, parse_qs env body !! key <> Some [].

(** The parameters initiation encodes into the redirect, before the
    optional [scope]. *)
Definition redirect_params (env : Env) (me redirect_url csrf_token : string)
    (state : option string) : list (string * option string) :=
  [ ("me", Some me);
    ("client_id", client_id env);
    ("redirect_uri", Some redirect_url);
    ("state", Some (wrap_state csrf_token state)) ].

(** The [href] of the HTML [<link rel=...>] element of a page for a
    relation: [None] without such an element, a [KeyError] when the
    element has no [href]. *)
Definition html_link (env : Env) (r : Response) (rel : Relation)
    : PyExc + option string :=
  and_href (soup_find_link env (text r) (rel_name rel)).

(* ===================================================================== *)
(** ** What the specification calls a scheme *)
(* ===================================================================== *)

Module UrlSpec.

Definition is_alpha (c : ascii) : bool :=
  let n := nat_of_ascii c in
  ((65 <=? n)%nat && (n <=? 90)%nat) || ((97 <=? n)%nat && (n <=? 122)%nat).

Definition is_scheme_char (c : ascii) : bool :=
  let n := nat_of_ascii c in
  is_alpha c || ((48 <=? n)%nat && (n <=? 57)%nat)
  || Ascii.eqb c "+" || Ascii.eqb c "-" || Ascii.eqb c ".".

(** Skip the rest of a scheme name, then expect ["://"]. *)
Fixpoint after_scheme (s : string) : bool :=
  match s with
  | EmptyString => false
  | String c rest =>
      if is_scheme_char c then after_scheme rest
      else String.prefix "://" s
  end.

(** The URL starts with a scheme in the sense of RFC 3986 (a letter,
    then letters, digits, [+], [-] or [.]) followed by ["://"]. *)
Definition starts_with_scheme (s : string) : bool :=
  match s with
  | EmptyString => false
  | String c rest => is_alpha c && after_scheme rest
  end.

End UrlSpec.

(* ===================================================================== *)
(** ** Concrete collaborators for running the code *)
(* ===================================================================== *)

Module Fixture.

(** [s.split(c)]: every occurrence splits. *)
Fixpoint split_all (c : ascii) (s : string) : list string :=
  match s with
  | EmptyString => [EmptyString]
  | String a rest =>
      if Ascii.eqb a c then EmptyString :: split_all c rest
      else match split_all c rest with
           | [] => [String a EmptyString]
           | piece :: pieces => String a piece :: pieces
           end
  end.

(** [parse_qs] on bodies without percent escapes or [+]: pairs are
    separated by [&], a name from its value by the first [=], pairs
    with a blank value are dropped, repeated names accumulate. *)
Definition parse_qs_plain (body : string) : gmap string (list string) :=
  foldl
    (fun d nv =>
       match PyStr.cut "=" nv with
       | Some (name, value) =>
           if String.eqb value "" then d
           else <[name := (default [] (d !! name) ++ [value])%list]> d
       | None => d
       end)
    ∅ (split_all "&" body).

(** [urlencode] without escaping, for values that need none. *)
Fixpoint urlencode_plain (params : list (string * option string))
    : string :=
  match params with
  | [] => ""
  | [(k, v)] => k +:+ "=" +:+ default "None" v
  | (k, v) :: rest =>
      k +:+ "=" +:+ default "None" v +:+ "&" +:+ urlencode_plain rest
  end.

(** A world with one identity page and one provider. [page] is the
    answer to every GET, [answer] to every POST; [html_links] lists the
    [<link>] elements of the page by relation. *)
Definition make_env (page answer : PyExc + Response)
    (html_links : list (string * Tag)) : Env :=
  {| client_id := Some "https://client.example/";
     requests_get := fun _ _ => page;
     requests_post := fun _ _ _ => answer;
     soup_find_link := fun _ rel =>
       snd <$> List.find (fun p => String.eqb (fst p) rel) html_links;
     parse_qs := parse_qs_plain;
     urlencode := urlencode_plain;
     url_for := fun name => "https://client.example/" +:+ name;
     view_functions :=
       [("index", OtherView 0);
        ("micropub_callback", AuthorizedView);
        ("indieauth_callback", AuthenticatedView)];
     uuid4_hex := fun _ => "0123456789abcdef0123456789abcdef";
     str_of_qs := fun _ => "{}" |}.

Definition ok (body : string) (hdr : gmap string (gmap string string))
    : PyExc + Response :=
  inr (mkResponse 200 body hdr).

Definition link_to (url : string) : gmap string string :=
  {[ "url" := url ]}.

Definition link_tag (href : string) : Tag :=
  mkTag {[ "href" := href ]}.

(** Link headers naming all three endpoints. *)
Definition full_headers : gmap string (gmap string string) :=
  {[ "authorization_endpoint" := link_to "https://auth.example/auth";
     "token_endpoint" := link_to "https://auth.example/token";
     "micropub" := link_to "https://example.com/micropub" ]}.

Definition token : string := "0123456789abcdef0123456789abcdef".

Definition world0 : World :=
  mkWorld {[ CSRF_KEY := token ]} [] 1.

(** A callback whose state carries CSRF token [tok] and application
    state ["/home"]. *)
Definition callback (tok : string) : Request :=
  mkRequest
    [("code", "c0de"); ("state", tok +:+ "|/home");
     ("me", "http://example.com")]
    "micropub_callback".

End Fixture.

(* ===================================================================== *)
(** ** Properties *)
(* ===================================================================== *)

(** *** Reasoning about computations *)

Ltac unfold_m :=
  unfold mbind, M_bind, bind, mret, M_ret, ret, raise, lift,
         http_get, http_post, session_get, session_set, uuid4 in *;
  simpl in *.

Ltac run := unfold_m; repeat (case_match; simplify_eq/=); try done.

(** *** The state codec *)

Section Codec.

Lemma contains_app_sep (c : ascii) (t s : string) :
  PyStr.contains c (t +:+ String c s) = true.
Proof.
  induction t as [|a t IH]; simpl.
  - by rewrite Ascii.eqb_refl.
  - destruct (Ascii.eqb a c); [done | exact IH].
Qed.

Lemma cut_app_sep (c : ascii) (t s : string) :
  PyStr.contains c t = false ->
  PyStr.cut c (t +:+ String c s) = Some (t, s).
Proof.
  induction t as [|a t IH]; simpl; intros H.
  - by rewrite Ascii.eqb_refl.
  - destruct (Ascii.eqb a c); [done |]. by rewrite IH.
Qed.

Lemma cut_contains (c : ascii) (s : string) :
  PyStr.contains c s = true -> is_Some (PyStr.cut c s).
Proof.
  induction s as [|a s IH]; simpl; [done |].
  destruct (Ascii.eqb a c); [by eexists |].
  intros H. destruct (IH H) as [[b r] ->]. by eexists.
Qed.

Lemma truthy_app_sep (t s : string) (c : ascii) :
  truthy (Some (t +:+ String c s)) = true.
Proof. by destruct t. Qed.

(** The unpacking in the handlers cannot raise: under the guard the
    split has exactly two parts. *)
Lemma unwrap_state_total (ws : option string) :
  exists p, unwrap_state ws = inr p.
Proof.
  destruct ws as [ws|]; simpl; [| by eexists].
  destruct (negb (String.eqb ws "")); simpl; [| by eexists].
  destruct (PyStr.contains "|" ws) eqn:Hc; [| by eexists].
  unfold PyStr.split1.
  destruct (cut_contains _ _ Hc) as [[b r] ->]. by eexists.
Qed.

Lemma wrap_state_string (tok st : string) :
  wrap_state tok (Some st) = tok +:+ "|" +:+ st.
Proof.
  unfold wrap_state, py_or, truthy.
  destruct (String.eqb_spec st ""); by subst.
Qed.

End Codec.

(** C3. For every CSRF token without ['|'] and every application state
    (empty or not, with or without ['|']), the wrapped state is
    [token + "|" + state], and unwrapping it, which splits at the first
    ['|'] only, gives back exactly the token and the state. *)
Theorem C3_unwrap_wrap_roundtrip (tok st : string) :
  PyStr.contains "|" tok = false ->
  wrap_state tok (Some st) = tok +:+ "|" +:+ st /\
  unwrap_state (Some (tok +:+ "|" +:+ st)) = inr (Some tok, Some st).
Proof.
  intros Htok. split; [apply wrap_state_string |].
  unfold unwrap_state.
  change (tok +:+ "|" +:+ st) with (tok +:+ String "|" st).
  rewrite truthy_app_sep, contains_app_sep. simpl.
  unfold PyStr.split1. by rewrite cut_app_sep.
Qed.

Lemma C3_unwrap_wrap_roundtrip_witness :
  PyStr.contains "|" "0123abcd" = false /\
  unwrap_state (Some ("0123abcd" +:+ "|" +:+ "a|b|")) =
    inr (Some "0123abcd", Some "a|b|").
Proof.
  split; [reflexivity |].
  apply (C3_unwrap_wrap_roundtrip "0123abcd" "a|b|"). reflexivity.
Defined.


(** *** Endpoint discovery *)

Section Discovery.

Variable env : Env.

(** Discovery performs exactly one GET, of the URL it was given, and
    touches nothing else, whatever the outcome. *)
Lemma discover_world (me : option string) (w : World) :
  (_discover_endpoints env me w).2 = log_call (GET me) w.
Proof. unfold _discover_endpoints. run. Qed.

Lemma discover_fault (me : option string) (w : World) (e : PyExc) :
  requests_get env (http_log w) me = inl e ->
  (_discover_endpoints env me w).1 = inl e.
Proof. intros H. unfold _discover_endpoints. unfold_m. by rewrite H. Qed.

Lemma discover_not_200 (me : option string) (w : World) (r : Response) :
  requests_get env (http_log w) me = inr r ->
  status_code r <> 200 ->
  (_discover_endpoints env me w).1 = inr (None, None, None).
Proof.
  intros H Hs. unfold _discover_endpoints. unfold_m. rewrite H.
  apply Z.eqb_neq in Hs. by rewrite Hs.
Qed.

(** On a 200 page each slot of a returned triple is the Link header's URL
    when the header names one, and the HTML element's [href] otherwise. *)
Lemma discover_200_inv (me : option string) (w : World)
    (r : Response) (eps : option string * option string * option string) :
  requests_get env (http_log w) me = inr r ->
  status_code r = 200 ->
  (_discover_endpoints env me w).1 = inr eps ->
  forall rel,
    if truthy (header_link r (rel_name rel))
    then slot rel eps = header_link r (rel_name rel)
    else html_link env r rel = inr (slot rel eps).
Proof.
  intros H Hs. unfold html_link, _discover_endpoints. unfold_m.
  rewrite H, Hs. simpl.
  destruct (truthy (header_link r "authorization_endpoint")) eqn:Ha;
    destruct (truthy (header_link r "token_endpoint")) eqn:Ht;
    destruct (truthy (header_link r "micropub")) eqn:Hm;
    simpl; intros Hr rel;
    repeat (case_match; simplify_eq/=);
    destruct rel; simpl in *; rewrite ?Ha, ?Ht, ?Hm; try done.
  all: congruence.
Qed.

(** On a 200 page discovery returns unless an HTML element it has to
    read lacks its [href]. *)
Lemma discover_200_returns (me : option string) (w : World) (r : Response) :
  requests_get env (http_log w) me = inr r ->
  status_code r = 200 ->
  (forall rel, truthy (header_link r (rel_name rel)) = false ->
               exists v, html_link env r rel = inr v) ->
  exists eps, (_discover_endpoints env me w).1 = inr eps.
Proof.
  intros H Hs Hhtml. unfold _discover_endpoints. unfold_m.
  rewrite H, Hs. simpl.
  pose proof (Hhtml RelAuthorization) as Ha.
  pose proof (Hhtml RelToken) as Ht.
  pose proof (Hhtml RelMicropub) as Hm.
  unfold html_link in *. simpl in *.
  destruct (truthy (header_link r "authorization_endpoint"));
    destruct (truthy (header_link r "token_endpoint"));
    destruct (truthy (header_link r "micropub")); simpl;
    try (destruct Ha as [? ->]; [done |]);
    try (destruct Ht as [? ->]; [done |]);
    try (destruct Hm as [? ->]; [done |]);
    by eexists.
Qed.

End Discovery.

(** C4. Discovery issues one GET of the identity URL and changes nothing
    else. A response that is not a 200 gives three absent endpoints. On a
    200, for each relation, a URL named by the Link headers is the
    result whatever the HTML says, and the [href] of the HTML [<link>]
    element is the result exactly when the headers name no URL for that
    relation; discovery returns whenever the elements it has to read
    carry an [href]. *)
Theorem C4_discovery_precedence (env : Env) (me : option string) (w : World) :
  http_log (_discover_endpoints env me w).2 = (http_log w ++ [GET me])%list /\
  session (_discover_endpoints env me w).2 = session w /\
  forall r, requests_get env (http_log w) me = inr r ->
    (status_code r <> 200 ->
       (_discover_endpoints env me w).1 = inr (None, None, None)) /\
    (status_code r = 200 ->
       (forall eps rel,
          (_discover_endpoints env me w).1 = inr eps ->
          (forall u, header_link r (rel_name rel) = Some u -> u <> "" ->
                     slot rel eps = Some u) /\
          (truthy (header_link r (rel_name rel)) = false ->
           html_link env r rel = inr (slot rel eps))) /\
       ((forall rel, truthy (header_link r (rel_name rel)) = false ->
                     exists v, html_link env r rel = inr v) ->
        exists eps, (_discover_endpoints env me w).1 = inr eps)).
Proof.
  rewrite discover_world. do 2 (split; [done |]).
  intros r Hget. split; [by apply discover_not_200 |].
  intros Hs. split; [| by eapply discover_200_returns].
  intros eps rel Heps.
  pose proof (discover_200_inv env me w r eps Hget Hs Heps rel) as Hrel.
  split.
  - intros u Hu Hne. rewrite Hu in Hrel. simpl in Hrel.
    apply String.eqb_neq in Hne. by rewrite Hne in Hrel.
  - intros Hf. by rewrite Hf in Hrel.
Qed.

(** A page whose Link header and HTML both name an authorization
    endpoint, and whose token endpoint is in the HTML only. *)
Lemma C4_discovery_precedence_witness :
  let page :=
    mkResponse 200 "<html>"
      {[ "authorization_endpoint" :=
           Fixture.link_to "https://header.example/auth" ]} in
  let env :=
    Fixture.make_env (inr page) (Fixture.ok "" ∅)
      [("authorization_endpoint",
        Fixture.link_tag "https://html.example/auth");
       ("token_endpoint", Fixture.link_tag "https://html.example/token")] in
  let out := _discover_endpoints env (Some "http://example.com")
               Fixture.world0 in
  html_link env page RelAuthorization =
    inr (Some "https://html.example/auth") /\
  http_log out.2 = [GET (Some "http://example.com")] /\
  exists eps, out.1 = inr eps /\
    slot RelAuthorization eps = Some "https://header.example/auth" /\
    html_link env page RelToken = inr (slot RelToken eps).
Proof.
  intros page env out.
  destruct (C4_discovery_precedence env (Some "http://example.com")
              Fixture.world0) as (Hlog & _ & Hres).
  destruct (Hres page eq_refl) as [_ H200].
  destruct (H200 eq_refl) as [Hinv _].
  split; [vm_compute; reflexivity |].
  split; [exact Hlog |].
  exists (Some "https://header.example/auth",
          Some "https://html.example/token", None).
  assert (out.1 = inr (Some "https://header.example/auth",
                       Some "https://html.example/token", None)) as Hout
    by (vm_compute; reflexivity).
  split; [exact Hout |].
  split.
  - apply (proj1 (Hinv _ RelAuthorization Hout)
             "https://header.example/auth");
      [vm_compute; reflexivity | discriminate].
  - apply (proj2 (Hinv _ RelToken Hout)). vm_compute; reflexivity.
Defined.

(** *** The callback resolvers *)

Lemma py_ne_same (v : option string) : py_ne v v = false.
Proof. unfold py_ne. by rewrite bool_decide_true. Qed.

Lemma py_ne_diff (x y : option string) : x <> y -> py_ne x y = true.
Proof. intros H. unfold py_ne. by rewrite bool_decide_false. Qed.

(** Step a handler over its head when CSRF validation passes. *)
Ltac pass_csrf H :=
  let Hu := fresh "Hunwrap" in
  let Hne := fresh "Htok" in
  let Hs := fresh "Hsess" in
  destruct H as (Hu & Hne & Hs);
  unfold _handle_authenticate_response, _handle_authorize_response;
  unfold_m; rewrite Hu; simpl;
  apply String.eqb_neq in Hne; rewrite Hne; simpl;
  rewrite Hs, py_ne_same.

(** C1 (amended). When the callback's state unwraps to a non-empty CSRF
    token that differs from the one stored in the session (or none is
    stored), both resolvers return the response whose error is
    "mismatched CSRF token", with no [me] and no [access_token], and
    leave the world as it was: no outbound request is made. *)
Theorem C1_mismatched_csrf_token (env : Env) (request : Request) (w : World)
    (tok : string) (st : option string) :
  unwrap_state (args_get (args request) "state") = inr (Some tok, st) ->
  tok <> "" ->
  session w !! CSRF_KEY <> Some tok ->
  let r := AuthResponse_init None None None st None
             (Some "mismatched CSRF token") in
  _handle_authenticate_response env request w = (inr r, w) /\
  _handle_authorize_response env request w = (inr r, w) /\
  error r = Some "mismatched CSRF token" /\
  me r = None /\ access_token r = None.
Proof.
  intros Hu Hne Hs r.
  unfold _handle_authenticate_response, _handle_authorize_response.
  unfold_m. rewrite Hu. simpl.
  apply String.eqb_neq in Hne. rewrite Hne. simpl.
  rewrite py_ne_diff by congruence. done.
Qed.

Lemma C1_mismatched_csrf_token_witness :
  let env := Fixture.make_env (Fixture.ok "" Fixture.full_headers)
               (Fixture.ok "access_token=abc123" ∅) [] in
  _handle_authorize_response env (Fixture.callback "f00d") Fixture.world0 =
    (inr (AuthResponse_init None None None (Some "/home") None
            (Some "mismatched CSRF token")),
     Fixture.world0).
Proof.
  intros env.
  apply (C1_mismatched_csrf_token env (Fixture.callback "f00d")
           Fixture.world0 "f00d" (Some "/home"));
    [reflexivity | discriminate | vm_compute; discriminate].
Defined.

(** C1 as stated fails on an empty token: the state ["|/home"] unwraps
    to the token [""], which differs from the stored one, and the error
    is "no CSRF token in response". *)
Lemma C1_counterexample :
  let env := Fixture.make_env (Fixture.ok "" Fixture.full_headers)
               (Fixture.ok "access_token=abc123" ∅) [] in
  let request := Fixture.callback "" in
  let r := AuthResponse_init None None None (Some "/home") None
             (Some "no CSRF token in response") in
  unwrap_state (args_get (args request) "state")
    = inr (Some "", Some "/home") /\
  session Fixture.world0 !! CSRF_KEY <> Some "" /\
  (_handle_authenticate_response env request Fixture.world0).1 = inr r /\
  (_handle_authorize_response env request Fixture.world0).1 = inr r /\
  error r <> Some "mismatched CSRF token".
Proof.
  intros env request r.
  split; [reflexivity |].
  split; [vm_compute; discriminate |].
  split; [vm_compute; reflexivity |].
  split; [vm_compute; reflexivity | discriminate].
Qed.

Arguments _discover_endpoints : simpl never.

(** Check [csrf_passes] on concrete data. *)
Ltac csrf_ok :=
  split;
  [ vm_compute; reflexivity
  | split; [vm_compute; discriminate | vm_compute; reflexivity] ].

(** C5 (amended). When an authorize callback passes CSRF validation and
    discovery yields no token endpoint or no micropub endpoint, the
    resolver returns, without any further request, a response whose [me]
    is the unconfirmed identity URL of the callback, whose
    [access_token] is absent and whose error is
    "no micropub endpoint found." (with its final full stop). *)
Theorem C5_no_micropub_endpoint (env : Env) (request : Request) (w w1 : World)
    (tok : string) (st a t m : option string) :
  csrf_passes request w tok st ->
  _discover_endpoints env (args_get (args request) "me") w
    = (inr (a, t, m), w1) ->
  truthy t = false \/ truthy m = false ->
  exists r,
    _handle_authorize_response env request w = (inr r, w1) /\
    me r = args_get (args request) "me" /\
    access_token r = None /\
    state r = st /\
    error r = Some "no micropub endpoint found.".
Proof.
  intros Hcsrf Hdisc Habsent. pass_csrf Hcsrf. rewrite Hdisc. simpl.
  assert (negb (truthy t) || negb (truthy m) = true) as ->
    by (destruct Habsent as [-> | ->]; [done | apply orb_true_r]).
  by eexists.
Qed.

(** An identity page that names an authorization endpoint only. *)
Lemma C5_no_micropub_endpoint_witness :
  let env :=
    Fixture.make_env (Fixture.ok "<html>" ∅) (Fixture.ok "x=1" ∅)
      [("authorization_endpoint",
        Fixture.link_tag "https://auth.example/auth")] in
  exists r w1,
    _handle_authorize_response env (Fixture.callback Fixture.token)
      Fixture.world0 = (inr r, w1) /\
    me r = Some "http://example.com" /\
    error r = Some "no micropub endpoint found.".
Proof.
  intros env.
  destruct (C5_no_micropub_endpoint env (Fixture.callback Fixture.token)
              Fixture.world0
              (log_call (GET (Some "http://example.com")) Fixture.world0)
              Fixture.token (Some "/home")
              (Some "https://auth.example/auth") None None)
    as (r & Hr & Hme & _ & _ & Herr).
  - csrf_ok.
  - vm_compute; reflexivity.
  - by left.
  - exists r. eexists. split; [exact Hr | by split].
Defined.

(** C5 as stated fails: the message the code returns ends in a full
    stop, so it is not the string "no micropub endpoint found". *)
Lemma C5_counterexample :
  let env :=
    Fixture.make_env (Fixture.ok "<html>" ∅) (Fixture.ok "x=1" ∅)
      [("authorization_endpoint",
        Fixture.link_tag "https://auth.example/auth")] in
  let request := Fixture.callback Fixture.token in
  csrf_passes request Fixture.world0 Fixture.token (Some "/home") /\
  (_discover_endpoints env (args_get (args request) "me") Fixture.world0).1
    = inr (Some "https://auth.example/auth", None, None) /\
  exists r,
    (_handle_authorize_response env request Fixture.world0).1 = inr r /\
    error r <> Some "no micropub endpoint found".
Proof.
  intros env request.
  split; [csrf_ok |].
  split; [vm_compute; reflexivity |].
  eexists. split; [vm_compute; reflexivity | discriminate].
Qed.

(** C8 (amended). When an authenticate callback passes CSRF validation,
    discovery returns, and the authorization endpoint answers 200 with a
    body that has no [me] field, the resolver returns a response with
    [me] absent whose error is the text [missing "me" in response], the
    word [me] standing between double quotes. *)
Theorem C8_missing_me_in_response (env : Env) (request : Request)
    (w w1 : World) (tok : string) (st : option string)
    (eps : option string * option string * option string)
    (resp : Response) :
  csrf_passes request w tok st ->
  _discover_endpoints env (args_get (args request) "me") w = (inr eps, w1) ->
  requests_post env (http_log w1) (auth_url_or_default eps.1.1)
    (auth_data env request) = inr resp ->
  status_code resp = 200 ->
  parse_qs env (text resp) !! "me" = None ->
  exists r,
    (_handle_authenticate_response env request w).1 = inr r /\
    me r = None /\
    state r = st /\
    error r = Some ("missing " +:+ PyStr.dquote +:+ "me" +:+ PyStr.dquote
                    +:+ " in response").
Proof.
  intros Hcsrf Hdisc Hpost Hs Hme. pass_csrf Hcsrf.
  rewrite Hdisc. simpl. rewrite Hpost, Hs. simpl.
  rewrite bool_decide_true by done. by eexists.
Qed.

Lemma C8_missing_me_in_response_witness :
  let env :=
    Fixture.make_env (Fixture.ok "" Fixture.full_headers)
      (Fixture.ok "x=1" ∅) [] in
  exists r,
    (_handle_authenticate_response env (Fixture.callback Fixture.token)
       Fixture.world0).1 = inr r /\
    me r = None /\
    String.length (default "" (error r)) = 24%nat.
Proof.
  intros env.
  destruct (C8_missing_me_in_response env (Fixture.callback Fixture.token)
              Fixture.world0
              (log_call (GET (Some "http://example.com")) Fixture.world0)
              Fixture.token (Some "/home")
              (Some "https://auth.example/auth",
               Some "https://auth.example/token",
               Some "https://example.com/micropub")
              (mkResponse 200 "x=1" ∅))
    as (r & Hr & Hme & _ & Herr).
  - csrf_ok.
  - vm_compute; reflexivity.
  - reflexivity.
  - reflexivity.
  - vm_compute; reflexivity.
  - exists r. split; [exact Hr |]. split; [exact Hme |].
    rewrite Herr. reflexivity.
Defined.

(** C8 as stated fails: the message carries double quotes around [me],
    so it is not the string "missing me in response". *)
Lemma C8_counterexample :
  let env :=
    Fixture.make_env (Fixture.ok "" Fixture.full_headers)
      (Fixture.ok "x=1" ∅) [] in
  let request := Fixture.callback Fixture.token in
  csrf_passes request Fixture.world0 Fixture.token (Some "/home") /\
  parse_qs env "x=1" !! "me" = None /\
  exists r,
    (_handle_authenticate_response env request Fixture.world0).1 = inr r /\
    error r <> Some "missing me in response".
Proof.
  intros env request.
  split; [csrf_ok |].
  split; [vm_compute; reflexivity |].
  eexists. split; [vm_compute; reflexivity | vm_compute; discriminate].
Qed.

(** The success path of the token exchange, for a body that has all
    three fields. *)
Lemma authorize_success (env : Env) (request : Request)
    (w w1 : World) (tok t m : string) (st a : option string)
    (resp : Response) (tk c s : string) (tks cs ss : list string) :
  csrf_passes request w tok st ->
  _discover_endpoints env (args_get (args request) "me") w
    = (inr (a, Some t, Some m), w1) ->
  t <> "" -> m <> "" ->
  requests_post env (http_log w1) t (token_data env request) = inr resp ->
  status_code resp = 200 ->
  parse_qs env (text resp) !! "access_token" = Some (tk :: tks) ->
  parse_qs env (text resp) !! "me" = Some (c :: cs) ->
  parse_qs env (text resp) !! "scope" = Some (s :: ss) ->
  (_handle_authorize_response env request w).1 =
    inr (AuthResponse_init (Some c) (Some m) (Some tk) st (Some s) None).
Proof.
  intros Hcsrf Hdisc Ht Hm Hpost Hs Htk Hme Hsc. pass_csrf Hcsrf.
  rewrite Hdisc. simpl.
  apply String.eqb_neq in Ht, Hm. rewrite Ht, Hm. simpl.
  rewrite Hpost, Hs. simpl. by rewrite Htk, Hme, Hsc.
Qed.

(** C2 (what the code does instead). When an authorize callback passes
    CSRF validation, both endpoints are discovered and the token
    endpoint answers 200 with a body that has an [access_token] field,
    the resolver does not return if the body has no [me] field, nor if
    it has [me] but no [scope] field: indexing the missing field raises
    a [TypeError]. *)
Theorem C2_token_body_without_me_raises (env : Env) (request : Request)
    (w w1 : World) (tok t m : string) (st a : option string)
    (resp : Response) (tk : string) (tks : list string) :
  csrf_passes request w tok st ->
  _discover_endpoints env (args_get (args request) "me") w
    = (inr (a, Some t, Some m), w1) ->
  t <> "" -> m <> "" ->
  requests_post env (http_log w1) t (token_data env request) = inr resp ->
  status_code resp = 200 ->
  parse_qs env (text resp) !! "access_token" = Some (tk :: tks) ->
  (parse_qs env (text resp) !! "me" = None ->
   (_handle_authorize_response env request w).1 =
     inl (TypeError "'NoneType' object is not subscriptable")) /\
  (forall c cs,
     parse_qs env (text resp) !! "me" = Some (c :: cs) ->
     parse_qs env (text resp) !! "scope" = None ->
     (_handle_authorize_response env request w).1 =
       inl (TypeError "'NoneType' object is not subscriptable")).
Proof.
  intros Hcsrf Hdisc Ht Hm Hpost Hs Htk. pass_csrf Hcsrf.
  rewrite Hdisc. simpl.
  apply String.eqb_neq in Ht, Hm. rewrite Ht, Hm. simpl.
  rewrite Hpost, Hs. simpl. rewrite Htk. simpl.
  split; [by intros -> | by intros c cs -> ->].
Qed.

(** The token endpoint answers 200 with the body [access_token=abc123]. *)
Lemma C2_token_body_without_me_raises_witness :
  let env :=
    Fixture.make_env (Fixture.ok "" Fixture.full_headers)
      (Fixture.ok "access_token=abc123" ∅) [] in
  (_handle_authorize_response env (Fixture.callback Fixture.token)
     Fixture.world0).1 =
    inl (TypeError "'NoneType' object is not subscriptable").
Proof.
  intros env.
  apply (C2_token_body_without_me_raises env
           (Fixture.callback Fixture.token) Fixture.world0
           (log_call (GET (Some "http://example.com")) Fixture.world0)
           Fixture.token "https://auth.example/token"
           "https://example.com/micropub" (Some "/home")
           (Some "https://auth.example/auth")
           (mkResponse 200 "access_token=abc123" ∅) "abc123" []);
    [| | | | | | | vm_compute; reflexivity].
  - csrf_ok.
  - vm_compute; reflexivity.
  - discriminate.
  - discriminate.
  - reflexivity.
  - reflexivity.
  - vm_compute; reflexivity.
Defined.

(** *** Flow initiation *)

Section Initiation.

Variable env : Env.

(** Initiation makes one outbound call: the discovery GET of the
    normalised identity URL. *)
Lemma start_indieauth_log (me redirect_url : string)
    (state scope : option string) (w : World) :
  http_log (_start_indieauth env me redirect_url state scope w).2
    = (http_log w ++ [GET (Some (normalize_me me))])%list.
Proof.
  unfold _start_indieauth. unfold_m.
  pose proof (discover_world env (Some (normalize_me me)) w) as Hw.
  destruct (_discover_endpoints env (Some (normalize_me me)) w)
    as [[e|[[a t] m]] w1]; simpl in *; by subst.
Qed.

(** When initiation returns it has stored a fresh token under the CSRF
    key; when it raises it has left the session alone. *)
Lemma start_indieauth_session (me redirect_url : string)
    (state scope : option string) (w : World) :
  match (_start_indieauth env me redirect_url state scope w).1 with
  | inr _ =>
      session (_start_indieauth env me redirect_url state scope w).2
        = <[CSRF_KEY := uuid4_hex env (uuid_drawn w)]> (session w)
  | inl _ =>
      session (_start_indieauth env me redirect_url state scope w).2
        = session w
  end.
Proof.
  unfold _start_indieauth. unfold_m.
  pose proof (discover_world env (Some (normalize_me me)) w) as Hw.
  destruct (_discover_endpoints env (Some (normalize_me me)) w)
    as [[e|[[a t] m]] w1]; simpl in *; by subst.
Qed.

Lemma normalize_me_idempotent (me : string) :
  normalize_me (normalize_me me) = normalize_me me.
Proof.
  unfold normalize_me, PyStr.startswith.
  destruct (String.prefix "http://" me) eqn:H1;
    destruct (String.prefix "https://" me) eqn:H2; simpl;
    rewrite ?H1, ?H2; try reflexivity.
  by destruct me.
Qed.

End Initiation.

(** C6. Whenever discovery yields no authorization endpoint (absent or
    empty), flow initiation redirects to [https://indieauth.com/auth]
    followed by the query string, and the authenticate callback posts
    its validation request to [https://indieauth.com/auth]. *)
Theorem C6_default_authorization_endpoint (env : Env) :
  DEFAULT_AUTH_URL = "https://indieauth.com/auth" /\
  (forall (me redirect_url : string) (state scope : option string)
          (w w1 : World) (a t m : option string),
     _discover_endpoints env (Some (normalize_me me)) w
       = (inr (a, t, m), w1) ->
     truthy a = false ->
     exists params,
       (_start_indieauth env me redirect_url state scope w).1
         = inr ("https://indieauth.com/auth" +:+ "?"
                +:+ urlencode env params)) /\
  (forall (request : Request) (w w1 : World) (tok : string)
          (st a t m : option string),
     csrf_passes request w tok st ->
     _discover_endpoints env (args_get (args request) "me") w
       = (inr (a, t, m), w1) ->
     truthy a = false ->
     http_log (_handle_authenticate_response env request w).2
       = (http_log w1
            ++ [POST "https://indieauth.com/auth" (auth_data env request)])%list).
Proof.
  split; [reflexivity |]. split.
  - intros me redirect_url state scope w w1 a t m Hdisc Ha.
    unfold _start_indieauth. unfold_m. rewrite Hdisc. simpl.
    unfold auth_url_or_default. rewrite Ha. simpl. by eexists.
  - intros request w w1 tok st a t m Hcsrf Hdisc Ha. pass_csrf Hcsrf.
    rewrite Hdisc. simpl.
    unfold auth_url_or_default. rewrite Ha. simpl.
    repeat (case_match; simplify_eq/=); done.
Qed.

(** An identity page that names no endpoint at all. *)
Lemma C6_default_authorization_endpoint_witness :
  let env := Fixture.make_env (Fixture.ok "<html>" ∅) (Fixture.ok "x=1" ∅) [] in
  (exists params,
     (_start_indieauth env "example.com" "https://client.example/cb"
        None None Fixture.world0).1
       = inr ("https://indieauth.com/auth" +:+ "?" +:+ urlencode env params))
  /\
  http_log (_handle_authenticate_response env
              (Fixture.callback Fixture.token) Fixture.world0).2
    = [GET (Some "http://example.com");
       POST "https://indieauth.com/auth"
         (auth_data env (Fixture.callback Fixture.token))].
Proof.
  intros env.
  destruct (C6_default_authorization_endpoint env) as (_ & Hstart & Hcb).
  split.
  - apply (Hstart "example.com" "https://client.example/cb" None None
             Fixture.world0
             (log_call (GET (Some "http://example.com")) Fixture.world0)
             None None None); [vm_compute; reflexivity | reflexivity].
  - apply (Hcb (Fixture.callback Fixture.token) Fixture.world0
             (log_call (GET (Some "http://example.com")) Fixture.world0)
             Fixture.token (Some "/home") None None None);
      [csrf_ok | vm_compute; reflexivity | reflexivity].
Defined.

(** C7 (amended). Flow initiation prepends ["http://"] to every identity
    URL that begins with neither ["http://"] nor ["https://"], and
    fetches the result; a URL that begins with one of the two is fetched
    unchanged. The prefix is added once: normalising again changes
    nothing. *)
Theorem C7_normalize_identity_url (env : Env) (me redirect_url : string)
    (state scope : option string) (w : World) :
  (PyStr.startswith me "http://" = false ->
   PyStr.startswith me "https://" = false ->
   http_log (_start_indieauth env me redirect_url state scope w).2
     = (http_log w ++ [GET (Some ("http://" +:+ me))])%list) /\
  (PyStr.startswith me "http://" = true \/
   PyStr.startswith me "https://" = true ->
   http_log (_start_indieauth env me redirect_url state scope w).2
     = (http_log w ++ [GET (Some me)])%list) /\
  normalize_me (normalize_me me) = normalize_me me.
Proof.
  rewrite start_indieauth_log. unfold normalize_me.
  split; [by intros -> -> |].
  split; [| apply normalize_me_idempotent].
  intros [-> | ->]; [done |]. by rewrite andb_false_r.
Qed.

Lemma C7_normalize_identity_url_witness :
  let env := Fixture.make_env (Fixture.ok "<html>" ∅) (Fixture.ok "x=1" ∅) [] in
  http_log (_start_indieauth env "example.com" "https://client.example/cb"
              None None Fixture.world0).2
    = [GET (Some "http://example.com")] /\
  http_log (_start_indieauth env "https://example.com"
              "https://client.example/cb" None None Fixture.world0).2
    = [GET (Some "https://example.com")].
Proof.
  intros env. split.
  - apply (proj1 (C7_normalize_identity_url env "example.com"
                    "https://client.example/cb" None None Fixture.world0));
      reflexivity.
  - apply (proj1 (proj2 (C7_normalize_identity_url env "https://example.com"
                           "https://client.example/cb" None None
                           Fixture.world0))).
    right. reflexivity.
Defined.

(** C7 as stated fails on a URL whose scheme is not http or https: it
    starts with a scheme, yet it is not passed to discovery unchanged. *)
Lemma C7_counterexample :
  let env := Fixture.make_env (Fixture.ok "<html>" ∅) (Fixture.ok "x=1" ∅) [] in
  let me := "ftp://example.com" in
  UrlSpec.starts_with_scheme me = true /\
  http_log (_start_indieauth env me "https://client.example/cb"
              None None Fixture.world0).2
    = [GET (Some "http://ftp://example.com")] /\
  http_log (_start_indieauth env me "https://client.example/cb"
              None None Fixture.world0).2
    <> [GET (Some me)].
Proof.
  intros env me.
  split; [reflexivity |].
  split; [vm_compute; reflexivity | vm_compute; discriminate].
Qed.

(** *** Invariants of the resolvers *)

Section Invariants.

Context {A B : Type}.

Lemma returns_only_ret (P : A -> Prop) (a : A) :
  P a -> returns_only P (mret a).
Proof. intros H w a' [= <-]. exact H. Qed.

Lemma returns_only_bind (P : B -> Prop) (m : M A) (k : A -> M B) :
  (forall a, returns_only P (k a)) -> returns_only P (m ≫= k).
Proof.
  intros Hk w b. unfold_m. destruct (m w) as [[e|a] w1]; [done |].
  apply Hk.
Qed.

Lemma keeps_session_ret (a : A) : keeps_session (mret a).
Proof. by intros w. Qed.

Lemma keeps_session_lift (r : PyExc + A) : keeps_session (lift r).
Proof. by intros w. Qed.

Lemma keeps_session_bind (m : M A) (k : A -> M B) :
  keeps_session m -> (forall a, keeps_session (k a)) ->
  keeps_session (m ≫= k).
Proof.
  intros Hm Hk w. unfold_m. specialize (Hm w).
  destruct (m w) as [[e|a] w1]; simpl in *; [done |].
  by rewrite Hk.
Qed.

End Invariants.

Lemma keeps_session_get (key : string) : keeps_session (session_get key).
Proof. by intros w. Qed.

Lemma keeps_session_post (env : Env) (url : string)
    (data : list (string * option string)) :
  keeps_session (http_post env url data).
Proof. by intros w. Qed.

Lemma keeps_session_discover (env : Env) (me : option string) :
  keeps_session (_discover_endpoints env me).
Proof. intros w. by rewrite discover_world. Qed.

Create HintDb session_frame.
#[global] Hint Resolve keeps_session_ret keeps_session_lift
  keeps_session_get keeps_session_post keeps_session_discover
  : session_frame.

(** Walk through a handler, one statement at a time. *)
Ltac walk by_bind by_leaf :=
  repeat first
    [ by_leaf
    | apply by_bind; intros
    | match goal with
      | |- context [let '(_, _) := ?p in _] => destruct p
      | |- context [if ?b then _ else _] => destruct b
      end ].

Lemma authenticate_response_shape (env : Env) (request : Request) :
  returns_only (fun r => next_url r = state r)
    (_handle_authenticate_response env request).
Proof.
  unfold _handle_authenticate_response.
  walk (@returns_only_bind) ltac:(by apply returns_only_ret).
Qed.

Lemma authorize_response_shape (env : Env) (request : Request) :
  returns_only (fun r => next_url r = state r)
    (_handle_authorize_response env request).
Proof.
  unfold _handle_authorize_response.
  walk (@returns_only_bind) ltac:(by apply returns_only_ret).
Qed.

Lemma authenticate_keeps_session (env : Env) (request : Request) :
  keeps_session (_handle_authenticate_response env request).
Proof.
  unfold _handle_authenticate_response.
  walk (@keeps_session_bind) ltac:(solve [auto with session_frame]).
Qed.

Lemma authorize_keeps_session (env : Env) (request : Request) :
  keeps_session (_handle_authorize_response env request).
Proof.
  unfold _handle_authorize_response.
  walk (@keeps_session_bind) ltac:(solve [auto with session_frame]).
Qed.

(** C9. The constructor gives [next_url] the value of [state], whatever
    its arguments, and so [next_url] equals [state] on every response
    either resolver returns. *)
Theorem C9_next_url_aliases_state :
  (forall m mp tk st sc err,
     next_url (AuthResponse_init m mp tk st sc err) = st /\
     state (AuthResponse_init m mp tk st sc err) = st) /\
  (forall env request w r,
     (_handle_authenticate_response env request w).1 = inr r ->
     next_url r = state r) /\
  (forall env request w r,
     (_handle_authorize_response env request w).1 = inr r ->
     next_url r = state r).
Proof.
  split; [done |]. split; intros env request w r.
  - apply (authenticate_response_shape env request).
  - apply (authorize_response_shape env request).
Qed.

(** The successful token exchange of the specification's scenario C. *)
Lemma C9_next_url_aliases_state_witness :
  let env :=
    Fixture.make_env (Fixture.ok "" Fixture.full_headers)
      (Fixture.ok "access_token=abc123&me=http://example.com&scope=create" ∅)
      [] in
  let r := AuthResponse_init (Some "http://example.com")
             (Some "https://example.com/micropub") (Some "abc123")
             (Some "/home") (Some "create") None in
  (_handle_authorize_response env (Fixture.callback Fixture.token)
     Fixture.world0).1 = inr r /\
  next_url r = state r.
Proof.
  intros env r.
  assert ((_handle_authorize_response env (Fixture.callback Fixture.token)
             Fixture.world0).1 = inr r) as Hr by (vm_compute; reflexivity).
  split; [exact Hr |].
  exact (proj2 (proj2 C9_next_url_aliases_state) env
           (Fixture.callback Fixture.token) Fixture.world0 r Hr).
Defined.

(** C10. Both resolvers leave the whole session, and with it the token
    under ['_micropub_csrf_token'], exactly as they found it, on every
    path, returning or raising; flow initiation is what writes that key:
    when it returns, the session is the old one with a freshly drawn
    token stored under the key. *)
Theorem C10_resolution_keeps_session (env : Env) (w : World) :
  (forall request,
     session (_handle_authenticate_response env request w).2 = session w /\
     session (_handle_authorize_response env request w).2 = session w /\
     session (_handle_authenticate_response env request w).2 !! CSRF_KEY
       = session w !! CSRF_KEY /\
     session (_handle_authorize_response env request w).2 !! CSRF_KEY
       = session w !! CSRF_KEY) /\
  CSRF_KEY = "_micropub_csrf_token" /\
  (forall me redirect_url state scope url,
     (_start_indieauth env me redirect_url state scope w).1 = inr url ->
     session (_start_indieauth env me redirect_url state scope w).2
       = <[CSRF_KEY := uuid4_hex env (uuid_drawn w)]> (session w)).
Proof.
  split.
  - intros request.
    rewrite (authenticate_keeps_session env request w).
    by rewrite (authorize_keeps_session env request w).
  - split; [reflexivity |].
    intros me redirect_url state scope url Hret.
    pose proof (start_indieauth_session env me redirect_url state scope w)
      as Hs.
    by rewrite Hret in Hs.
Qed.

(** A successful token exchange leaves the stored token in place, and a
    new flow replaces it. *)
Lemma C10_resolution_keeps_session_witness :
  let env :=
    Fixture.make_env (Fixture.ok "" Fixture.full_headers)
      (Fixture.ok "access_token=abc123&me=http://example.com&scope=create" ∅)
      [] in
  let w := mkWorld {[ CSRF_KEY := "feedbeef" ]} [] 0 in
  session (_handle_authorize_response env (Fixture.callback "feedbeef") w).2
    !! CSRF_KEY = Some "feedbeef" /\
  session (_start_indieauth env "example.com" "https://client.example/cb"
             None (Some "post") w).2 !! CSRF_KEY = Some Fixture.token.
Proof.
  intros env w.
  destruct (C10_resolution_keeps_session env w) as (Hres & _ & Hstart).
  split.
  - destruct (Hres (Fixture.callback "feedbeef")) as (_ & _ & _ & ->).
    reflexivity.
  - erewrite Hstart; [reflexivity | vm_compute; reflexivity].
Defined.

(* ===================================================================== *)
(** ** Further properties of the code *)
(* ===================================================================== *)

(** *** Unwrapping the state *)

Lemma cut_Some (c : ascii) (s before after : string) :
  PyStr.cut c s = Some (before, after) ->
  s = before +:+ String c after /\ PyStr.contains c before = false.
Proof.
  revert before. induction s as [|a s IH]; simpl; intros before; [done |].
  destruct (Ascii.eqb_spec a c) as [-> | Hne].
  - by intros [= <- <-].
  - destruct (PyStr.cut c s) as [[b r]|]; [| done].
    intros [= <- <-]. destruct (IH b eq_refl) as [-> Hb]. simpl.
    split; [done |]. by destruct (Ascii.eqb_spec a c).
Qed.

Lemma cut_None (c : ascii) (s : string) :
  PyStr.contains c s = false -> PyStr.cut c s = None.
Proof.
  induction s as [|a s IH]; simpl; [done |].
  destruct (Ascii.eqb a c); [done |]. by intros ->%IH.
Qed.

Lemma unwrap_state_no_sep (s : string) :
  PyStr.contains "|" s = false -> unwrap_state (Some s) = inr (None, None).
Proof. intros Hc. simpl. rewrite Hc. by rewrite andb_false_r. Qed.

(** X1. Unwrapping never raises: under its guard the split always has
    two parts, so the unpacking cannot fail. The result is either no
    token and no state, or a token together with a state; a missing
    state parameter, and one without ['|'], give the former. *)
Theorem X1_unwrap_state_never_raises (ws : option string) :
  (unwrap_state ws = inr (None, None) \/
   exists tok st, unwrap_state ws = inr (Some tok, Some st)) /\
  (ws = None -> unwrap_state ws = inr (None, None)) /\
  (forall s, ws = Some s -> PyStr.contains "|" s = false ->
             unwrap_state ws = inr (None, None)).
Proof.
  split; [| split].
  - destruct ws as [s|]; simpl; [| by left].
    destruct (negb (String.eqb s "")); simpl; [| by left].
    destruct (PyStr.contains "|" s) eqn:Hc; [| by left].
    unfold PyStr.split1. destruct (cut_contains _ _ Hc) as [[b r] ->].
    right. by eexists _, _.
  - by intros ->.
  - intros s -> Hc. by apply unwrap_state_no_sep.
Qed.

(** X2. Whatever unwraps to a token was that token, a ['|'] and the
    state: the token never contains ['|'], and the state is all that
    followed the first one. *)
Theorem X2_unwrap_state_inverse (ws : option string) (tok : string)
    (st : option string) :
  unwrap_state ws = inr (Some tok, st) ->
  exists st', st = Some st' /\
              ws = Some (tok +:+ "|" +:+ st') /\
              PyStr.contains "|" tok = false.
Proof.
  destruct ws as [s|]; simpl; [| done].
  destruct (negb (String.eqb s "") && PyStr.contains "|" s); [| done].
  unfold PyStr.split1.
  destruct (PyStr.cut "|" s) as [[b r]|] eqn:Hcut; simpl; [| done].
  intros [= <- <-]. destruct (cut_Some _ _ _ _ Hcut) as [-> Hb].
  by exists r.
Qed.

Lemma X2_unwrap_state_inverse_witness :
  exists st', Some "a|b" = Some st' /\
              Some "f00d|a|b" = Some ("f00d" +:+ "|" +:+ st') /\
              PyStr.contains "|" "f00d" = false.
Proof.
  apply (X2_unwrap_state_inverse (Some "f00d|a|b") "f00d" (Some "a|b")).
  reflexivity.
Defined.

(** *** Callbacks without a token *)

Lemma no_token_response (env : Env) (request : Request) (w : World)
    (tok st : option string) :
  unwrap_state (args_get (args request) "state") = inr (tok, st) ->
  truthy tok = false ->
  let r := AuthResponse_init None None None st None
             (Some "no CSRF token in response") in
  _handle_authenticate_response env request w = (inr r, w) /\
  _handle_authorize_response env request w = (inr r, w).
Proof.
  intros Hu Ht r.
  unfold _handle_authenticate_response, _handle_authorize_response.
  unfold_m. rewrite Hu. simpl. by rewrite Ht.
Qed.

(** X3. A callback whose [state] parameter is missing, or has no ['|'],
    is answered by both resolvers with the error
    "no CSRF token in response" and no state; one whose [state] begins
    with ['|'] gets the same error with the rest as state. In all three
    cases the session is not consulted and nothing is sent. *)
Theorem X3_no_csrf_token_in_response (env : Env) (request : Request)
    (w : World) :
  let answer st :=
    (inr (AuthResponse_init None None None st None
            (Some "no CSRF token in response")), w) in
  (args_get (args request) "state" = None ->
   _handle_authenticate_response env request w = answer None /\
   _handle_authorize_response env request w = answer None) /\
  (forall ws, args_get (args request) "state" = Some ws ->
              PyStr.contains "|" ws = false ->
   _handle_authenticate_response env request w = answer None /\
   _handle_authorize_response env request w = answer None) /\
  (forall rest, args_get (args request) "state" = Some ("|" +:+ rest) ->
   _handle_authenticate_response env request w = answer (Some rest) /\
   _handle_authorize_response env request w = answer (Some rest)).
Proof.
  intros answer. split; [| split].
  - intros Hs. apply (no_token_response _ _ _ None); [by rewrite Hs | done].
  - intros ws Hs Hc. apply (no_token_response _ _ _ None); [| done].
    rewrite Hs. by apply unwrap_state_no_sep.
  - intros rest Hs. apply (no_token_response _ _ _ (Some "")); [| done].
    by rewrite Hs.
Qed.

Lemma X3_no_csrf_token_in_response_witness :
  let env := Fixture.make_env (Fixture.ok "" Fixture.full_headers)
               (Fixture.ok "x=1" ∅) [] in
  let request := mkRequest [("code", "c0de"); ("state", "/home")] "cb" in
  _handle_authorize_response env request Fixture.world0 =
    (inr (AuthResponse_init None None None None None
            (Some "no CSRF token in response")), Fixture.world0).
Proof.
  intros env request.
  apply (proj1 (proj2 (X3_no_csrf_token_in_response env request
                         Fixture.world0)) "/home"); reflexivity.
Defined.

(** *** The outcomes of the authenticate callback *)

(** X4. When the authorization endpoint answers anything but 200, the
    authenticate resolver returns no [me] and the error
    "authorization failed. E: D", where E and D are the first values of
    the body's [error] and [error_description] fields, each replaced by
    "Unknown Error" when the field is missing. *)
Theorem X4_authorization_failed (env : Env) (request : Request)
    (w w1 : World) (tok : string) (st : option string)
    (eps : option string * option string * option string)
    (resp : Response) :
  csrf_passes request w tok st ->
  _discover_endpoints env (args_get (args request) "me") w = (inr eps, w1) ->
  requests_post env (http_log w1) (auth_url_or_default eps.1.1)
    (auth_data env request) = inr resp ->
  status_code resp <> 200 ->
  let field key :=
    match parse_qs env (text resp) !! key with
    | Some (v :: _) => v
    | _ => "Unknown Error"
    end in
  (_handle_authenticate_response env request w).1 =
    inr (AuthResponse_init None None None st None
           (Some ("authorization failed. " +:+ field "error" +:+ ": "
                  +:+ field "error_description"))).
Proof.
  intros Hcsrf Hdisc Hpost Hs field. pass_csrf Hcsrf.
  rewrite Hdisc. simpl. rewrite Hpost. apply Z.eqb_neq in Hs. rewrite Hs.
  simpl. subst field. simpl.
  destruct (parse_qs env (text resp) !! "error") as [[|e es]|];
    destruct (parse_qs env (text resp) !! "error_description")
      as [[|d ds]|]; done.
Qed.

Lemma X4_authorization_failed_witness :
  let env :=
    Fixture.make_env (Fixture.ok "" Fixture.full_headers)
      (inr (mkResponse 400 "error=invalid_request" ∅)) [] in
  (_handle_authenticate_response env (Fixture.callback Fixture.token)
     Fixture.world0).1 =
    inr (AuthResponse_init None None None (Some "/home") None
           (Some "authorization failed. invalid_request: Unknown Error")).
Proof.
  intros env.
  apply (X4_authorization_failed env (Fixture.callback Fixture.token)
           Fixture.world0
           (log_call (GET (Some "http://example.com")) Fixture.world0)
           Fixture.token (Some "/home")
           (Some "https://auth.example/auth",
            Some "https://auth.example/token",
            Some "https://example.com/micropub")
           (mkResponse 400 "error=invalid_request" ∅));
    [csrf_ok | vm_compute; reflexivity | reflexivity | discriminate].
Defined.

(** X5. When the authorization endpoint answers 200 with a body that has
    a [me] field, the authenticate resolver returns the first value of
    that field as [me], the application state, and nothing else: no
    error, no access token, no scope, no micropub endpoint. The [me] of
    the callback itself is not what is returned. *)
Theorem X5_authenticate_success (env : Env) (request : Request)
    (w w1 : World) (tok : string) (st : option string)
    (eps : option string * option string * option string)
    (resp : Response) (c : string) (cs : list string) :
  csrf_passes request w tok st ->
  _discover_endpoints env (args_get (args request) "me") w = (inr eps, w1) ->
  requests_post env (http_log w1) (auth_url_or_default eps.1.1)
    (auth_data env request) = inr resp ->
  status_code resp = 200 ->
  parse_qs env (text resp) !! "me" = Some (c :: cs) ->
  (_handle_authenticate_response env request w).1 =
    inr (AuthResponse_init (Some c) None None st None None).
Proof.
  intros Hcsrf Hdisc Hpost Hs Hme. pass_csrf Hcsrf.
  rewrite Hdisc. simpl. rewrite Hpost, Hs. simpl. by rewrite Hme.
Qed.

Lemma X5_authenticate_success_witness :
  let env :=
    Fixture.make_env (Fixture.ok "" Fixture.full_headers)
      (Fixture.ok "me=https://canonical.example/&me=x" ∅) [] in
  (_handle_authenticate_response env (Fixture.callback Fixture.token)
     Fixture.world0).1 =
    inr (AuthResponse_init (Some "https://canonical.example/") None None
           (Some "/home") None None).
Proof.
  intros env.
  apply (X5_authenticate_success env (Fixture.callback Fixture.token)
           Fixture.world0
           (log_call (GET (Some "http://example.com")) Fixture.world0)
           Fixture.token (Some "/home")
           (Some "https://auth.example/auth",
            Some "https://auth.example/token",
            Some "https://example.com/micropub")
           (mkResponse 200 "me=https://canonical.example/&me=x" ∅)
           "https://canonical.example/" ["x"]);
    [csrf_ok | vm_compute; reflexivity | reflexivity | reflexivity
    | vm_compute; reflexivity].
Defined.

(** Walk through a handler keeping the test of every branch taken. *)
Ltac walk_eqn by_bind by_leaf :=
  repeat first
    [ by_leaf
    | apply by_bind; intros
    | match goal with
      | |- context [let '(_, _) := ?p in _] => destruct p
      | |- context [if ?b then _ else _] => destruct b eqn:?
      end ].

(** X6. Every response the authenticate resolver returns has no access
    token, no micropub endpoint and no scope, and carries [me] exactly
    when it carries no error. *)
Theorem X6_authenticate_response_shape (env : Env) (request : Request)
    (w : World) (r : AuthResponse) :
  (_handle_authenticate_response env request w).1 = inr r ->
  access_token r = None /\ micropub_endpoint r = None /\ scope r = None /\
  (is_Some (me r) <-> error r = None).
Proof.
  revert w r.
  change (returns_only
            (fun r => access_token r = None /\ micropub_endpoint r = None /\
                      scope r = None /\ (is_Some (me r) <-> error r = None))
            (_handle_authenticate_response env request)).
  unfold _handle_authenticate_response.
  walk (@returns_only_bind)
    ltac:(apply returns_only_ret; simpl; rewrite ?is_Some_alt;
          by intuition).
Qed.

Lemma X6_authenticate_response_shape_witness :
  let env :=
    Fixture.make_env (Fixture.ok "" Fixture.full_headers)
      (Fixture.ok "me=https://canonical.example/" ∅) [] in
  let r := AuthResponse_init (Some "https://canonical.example/") None None
             (Some "/home") None None in
  access_token r = None /\ micropub_endpoint r = None /\ scope r = None /\
  (is_Some (me r) <-> error r = None).
Proof.
  intros env r.
  apply (X6_authenticate_response_shape env
           (Fixture.callback Fixture.token) Fixture.world0 r).
  vm_compute; reflexivity.
Defined.

(** *** The outcomes of the authorize callback *)

(** X7. Every response the authorize resolver returns carries an access
    token exactly when it carries no error; and with the access token
    come a [me], a [scope] and a non-empty micropub endpoint. *)
Theorem X7_authorize_response_shape (env : Env) (request : Request)
    (w : World) (r : AuthResponse) :
  (_handle_authorize_response env request w).1 = inr r ->
  (error r = None <-> is_Some (access_token r)) /\
  (is_Some (access_token r) ->
   is_Some (me r) /\ is_Some (scope r) /\
   truthy (micropub_endpoint r) = true).
Proof.
  revert w r.
  change (returns_only
            (fun r => (error r = None <-> is_Some (access_token r)) /\
                      (is_Some (access_token r) ->
                       is_Some (me r) /\ is_Some (scope r) /\
                       truthy (micropub_endpoint r) = true))
            (_handle_authorize_response env request)).
  unfold _handle_authorize_response.
  walk_eqn (@returns_only_bind)
    ltac:(apply returns_only_ret; simpl; rewrite ?is_Some_alt;
          repeat match goal with
                 | H : _ || _ = false |- _ =>
                     apply orb_false_elim in H; destruct H
                 | H : negb _ = false |- _ =>
                     apply negb_false_iff in H
                 end;
          by intuition).
Qed.

Lemma X7_authorize_response_shape_witness :
  let env :=
    Fixture.make_env (Fixture.ok "" Fixture.full_headers)
      (Fixture.ok "access_token=abc123&me=http://example.com&scope=create" ∅)
      [] in
  let r := AuthResponse_init (Some "http://example.com")
             (Some "https://example.com/micropub") (Some "abc123")
             (Some "/home") (Some "create") None in
  (error r = None <-> is_Some (access_token r)) /\
  (is_Some (access_token r) ->
   is_Some (me r) /\ is_Some (scope r) /\
   truthy (micropub_endpoint r) = true).
Proof.
  intros env r.
  apply (X7_authorize_response_shape env (Fixture.callback Fixture.token)
           Fixture.world0 r).
  vm_compute; reflexivity.
Defined.

(** X8. When the token endpoint answers anything but 200, the authorize
    resolver returns the callback's own [me], no access token, and the
    error "bad response from token endpoint: <Response [N]>" where N is
    the status in decimal; the body is not parsed. *)
Theorem X8_bad_response_from_token_endpoint (env : Env) (request : Request)
    (w w1 : World) (tok t m : string) (st a : option string)
    (resp : Response) :
  csrf_passes request w tok st ->
  _discover_endpoints env (args_get (args request) "me") w
    = (inr (a, Some t, Some m), w1) ->
  t <> "" -> m <> "" ->
  requests_post env (http_log w1) t (token_data env request) = inr resp ->
  status_code resp <> 200 ->
  (_handle_authorize_response env request w).1 =
    inr (AuthResponse_init (args_get (args request) "me") None None st None
           (Some ("bad response from token endpoint: <Response ["
                  +:+ pretty (status_code resp) +:+ "]>"))).
Proof.
  intros Hcsrf Hdisc Ht Hm Hpost Hs. pass_csrf Hcsrf.
  rewrite Hdisc. simpl.
  apply String.eqb_neq in Ht, Hm. rewrite Ht, Hm. simpl.
  rewrite Hpost. apply Z.eqb_neq in Hs. by rewrite Hs.
Qed.

Lemma X8_bad_response_from_token_endpoint_witness :
  let env :=
    Fixture.make_env (Fixture.ok "" Fixture.full_headers)
      (inr (mkResponse 503 "access_token=abc123" ∅)) [] in
  (_handle_authorize_response env (Fixture.callback Fixture.token)
     Fixture.world0).1 =
    inr (AuthResponse_init (Some "http://example.com") None None
           (Some "/home") None
           (Some "bad response from token endpoint: <Response [503]>")).
Proof.
  intros env.
  apply (X8_bad_response_from_token_endpoint env
           (Fixture.callback Fixture.token) Fixture.world0
           (log_call (GET (Some "http://example.com")) Fixture.world0)
           Fixture.token "https://auth.example/token"
           "https://example.com/micropub" (Some "/home")
           (Some "https://auth.example/auth")
           (mkResponse 503 "access_token=abc123" ∅));
    [csrf_ok | vm_compute; reflexivity | discriminate | discriminate
    | reflexivity | discriminate].
Defined.

(** X9. When the token endpoint answers 200 with a body that has no
    [access_token] field, the authorize resolver returns the callback's
    own [me], no access token, and an error that starts with
    "response from token endpoint missing access_token: " and ends with
    the printed body dictionary. *)
Theorem X9_token_response_missing_access_token (env : Env)
    (request : Request) (w w1 : World) (tok t m : string)
    (st a : option string) (resp : Response) :
  csrf_passes request w tok st ->
  _discover_endpoints env (args_get (args request) "me") w
    = (inr (a, Some t, Some m), w1) ->
  t <> "" -> m <> "" ->
  requests_post env (http_log w1) t (token_data env request) = inr resp ->
  status_code resp = 200 ->
  parse_qs env (text resp) !! "access_token" = None ->
  (_handle_authorize_response env request w).1 =
    inr (AuthResponse_init (args_get (args request) "me") None None st None
           (Some ("response from token endpoint missing access_token: "
                  +:+ str_of_qs env (parse_qs env (text resp))))).
Proof.
  intros Hcsrf Hdisc Ht Hm Hpost Hs Hat. pass_csrf Hcsrf.
  rewrite Hdisc. simpl.
  apply String.eqb_neq in Ht, Hm. rewrite Ht, Hm. simpl.
  rewrite Hpost, Hs. simpl. by rewrite Hat.
Qed.

Lemma X9_token_response_missing_access_token_witness :
  let env :=
    Fixture.make_env (Fixture.ok "" Fixture.full_headers)
      (Fixture.ok "me=http://example.com&scope=create" ∅) [] in
  (_handle_authorize_response env (Fixture.callback Fixture.token)
     Fixture.world0).1 =
    inr (AuthResponse_init (Some "http://example.com") None None
           (Some "/home") None
           (Some "response from token endpoint missing access_token: {}")).
Proof.
  intros env.
  apply (X9_token_response_missing_access_token env
           (Fixture.callback Fixture.token) Fixture.world0
           (log_call (GET (Some "http://example.com")) Fixture.world0)
           Fixture.token "https://auth.example/token"
           "https://example.com/micropub" (Some "/home")
           (Some "https://auth.example/auth")
           (mkResponse 200 "me=http://example.com&scope=create" ∅));
    [csrf_ok | vm_compute; reflexivity | discriminate | discriminate
    | reflexivity | reflexivity | vm_compute; reflexivity].
Defined.

(** *** Outbound traffic of the resolvers *)

Lemma sends_nil {A} (m : M A) (w : World) :
  (m w).2 = w -> sends m w [].
Proof. intros H. unfold sends. by rewrite H, app_nil_r. Qed.

(** Split a resolver run at its discovery call. *)
Ltac at_discovery env request w :=
  let Hw := fresh "Hw" in
  pose proof (discover_world env (args_get (args request) "me") w) as Hw;
  destruct (_discover_endpoints env (args_get (args request) "me") w)
    as [[?|[[? ?] ?]] ?]; simpl in Hw; subst.

(** X10. Whatever the callback and whatever the collaborators answer, a
    resolver sends nothing, or one GET of the callback's [me], or that
    GET followed by one POST of its form; nothing else ever leaves, and
    no POST is made before the GET. *)
Theorem X10_resolver_traffic (env : Env) (request : Request) (w : World) :
  let get := GET (args_get (args request) "me") in
  (sends (_handle_authenticate_response env request) w [] \/
   sends (_handle_authenticate_response env request) w [get] \/
   exists url,
     sends (_handle_authenticate_response env request) w
       [get; POST url (auth_data env request)]) /\
  (sends (_handle_authorize_response env request) w [] \/
   sends (_handle_authorize_response env request) w [get] \/
   exists url,
     sends (_handle_authorize_response env request) w
       [get; POST url (token_data env request)]).
Proof.
  intros get. subst get. unfold sends.
  unfold _handle_authenticate_response, _handle_authorize_response.
  unfold_m. split.
  - destruct (unwrap_state _) as [?|[? ?]]; simpl;
      [left; by rewrite app_nil_r |].
    repeat (case_match; simplify_eq/=; try (left; by rewrite app_nil_r)).
    all: at_discovery env request w; simplify_eq/=;
      try (right; left; reflexivity).
    all: right; right; eexists; rewrite <- app_assoc; reflexivity.
  - destruct (unwrap_state _) as [?|[? ?]]; simpl;
      [left; by rewrite app_nil_r |].
    repeat (case_match; simplify_eq/=; try (left; by rewrite app_nil_r)).
    all: at_discovery env request w; simplify_eq/=;
      try (right; left; reflexivity).
    all: right; right; eexists; rewrite <- app_assoc; reflexivity.
Qed.

(** X11. Once CSRF validation has passed and discovery has returned, the
    authorization code leaves exactly once. The authenticate resolver
    posts its form to the discovered authorization endpoint (or the
    default); the authorize resolver posts its form to the discovered
    token endpoint, never to the authorization or micropub endpoint.
    This holds whatever the endpoint answers, a raised fault included. *)
Theorem X11_code_goes_to_discovered_endpoint (env : Env)
    (request : Request) (w w1 : World) (tok : string)
    (st a t m : option string) :
  csrf_passes request w tok st ->
  _discover_endpoints env (args_get (args request) "me") w
    = (inr (a, t, m), w1) ->
  sends (_handle_authenticate_response env request) w
    [GET (args_get (args request) "me");
     POST (auth_url_or_default a) (auth_data env request)] /\
  (forall turl murl, t = Some turl -> turl <> "" ->
                     m = Some murl -> murl <> "" ->
     sends (_handle_authorize_response env request) w
       [GET (args_get (args request) "me");
        POST turl (token_data env request)]).
Proof.
  intros Hcsrf Hdisc.
  pose proof (discover_world env (args_get (args request) "me") w) as Hw.
  rewrite Hdisc in Hw. simpl in Hw. subst w1.
  unfold sends. split.
  - pass_csrf Hcsrf. rewrite Hdisc. simpl.
    repeat (case_match; simplify_eq/=); by rewrite <- app_assoc.
  - intros turl murl -> Ht -> Hm. pass_csrf Hcsrf. rewrite Hdisc. simpl.
    apply String.eqb_neq in Ht, Hm. rewrite Ht, Hm. simpl.
    repeat (case_match; simplify_eq/=); by rewrite <- app_assoc.
Qed.

Lemma X11_code_goes_to_discovered_endpoint_witness :
  let env :=
    Fixture.make_env (Fixture.ok "" Fixture.full_headers)
      (inl (TransportError "connection refused")) [] in
  let request := Fixture.callback Fixture.token in
  http_log (_handle_authorize_response env request Fixture.world0).2 =
    [GET (Some "http://example.com");
     POST "https://auth.example/token" (token_data env request)].
Proof.
  intros env request.
  apply (proj2 (X11_code_goes_to_discovered_endpoint env request
                  Fixture.world0
                  (log_call (GET (Some "http://example.com")) Fixture.world0)
                  Fixture.token (Some "/home")
                  (Some "https://auth.example/auth")
                  (Some "https://auth.example/token")
                  (Some "https://example.com/micropub")
                  ltac:(csrf_ok) ltac:(vm_compute; reflexivity))
           "https://auth.example/token" "https://example.com/micropub");
    [reflexivity | discriminate | reflexivity | discriminate].
Defined.

(** X12. Faults of the transport are not caught. After CSRF validation
    has passed, a fault raised by the discovery GET leaves either
    resolver as it is, and no POST is made; a fault raised by the POST
    leaves the resolver as it is too. *)
Theorem X12_transport_faults_propagate (env : Env) (request : Request)
    (w : World) (tok : string) (st : option string) :
  csrf_passes request w tok st ->
  (forall e,
     requests_get env (http_log w) (args_get (args request) "me") = inl e ->
     _handle_authenticate_response env request w
       = (inl e, log_call (GET (args_get (args request) "me")) w) /\
     _handle_authorize_response env request w
       = (inl e, log_call (GET (args_get (args request) "me")) w)) /\
  (forall e w1 a t m,
     _discover_endpoints env (args_get (args request) "me") w
       = (inr (a, t, m), w1) ->
     (requests_post env (http_log w1) (auth_url_or_default a)
        (auth_data env request) = inl e ->
      (_handle_authenticate_response env request w).1 = inl e) /\
     (forall turl, t = Some turl -> turl <> "" -> truthy m = true ->
        requests_post env (http_log w1) turl (token_data env request)
          = inl e ->
        (_handle_authorize_response env request w).1 = inl e)).
Proof.
  intros Hcsrf. split.
  - intros e Hget.
    pose proof (discover_world env (args_get (args request) "me") w) as Hw.
    pose proof (discover_fault env _ w e Hget) as He.
    destruct (_discover_endpoints env (args_get (args request) "me") w)
      as [r w1] eqn:Hdisc. simpl in *. subst.
    pass_csrf Hcsrf. by rewrite !Hdisc.
  - intros e w1 a t m Hdisc. split.
    + intros Hpost. pass_csrf Hcsrf. rewrite Hdisc. simpl. by rewrite Hpost.
    + intros turl -> Ht Hm Hpost. pass_csrf Hcsrf. rewrite Hdisc. simpl.
      apply String.eqb_neq in Ht. rewrite Ht, Hm. simpl. by rewrite Hpost.
Qed.

Lemma X12_transport_faults_propagate_witness :
  let env :=
    Fixture.make_env (inl (TransportError "name resolution failed"))
      (Fixture.ok "x=1" ∅) [] in
  let request := Fixture.callback Fixture.token in
  _handle_authenticate_response env request Fixture.world0
    = (inl (TransportError "name resolution failed"),
       log_call (GET (Some "http://example.com")) Fixture.world0).
Proof.
  intros env request.
  apply (proj1 (X12_transport_faults_propagate env request Fixture.world0
                  Fixture.token (Some "/home") ltac:(csrf_ok))).
  reflexivity.
Defined.

(** *** Edges of discovery *)

Lemma and_href_raises (link : option Tag) (e : PyExc) :
  and_href link = inl e -> e = KeyError "href".
Proof.
  destruct link as [tg|]; simpl; [| done]. unfold tag_getitem.
  destruct (attrs tg !! "href"); [done |]. by intros [= <-].
Qed.

(** X13. Discovery raises [KeyError('href')] when, on a 200 page, some
    relation has no URL in the Link headers and the page's HTML [<link>]
    element for it has no [href] attribute: the attribute is read
    without a check. *)
Theorem X13_link_without_href_raises (env : Env) (me : option string)
    (w : World) (r : Response) (rel : Relation) (tg : Tag) :
  requests_get env (http_log w) me = inr r ->
  status_code r = 200 ->
  truthy (header_link r (rel_name rel)) = false ->
  soup_find_link env (text r) (rel_name rel) = Some tg ->
  attrs tg !! "href" = None ->
  (_discover_endpoints env me w).1 = inl (KeyError "href").
Proof.
  intros Hget Hs Hhdr Hfind Hattr.
  assert (and_href (soup_find_link env (text r) (rel_name rel))
            = inl (KeyError "href")) as Hrel.
  { rewrite Hfind. simpl. unfold tag_getitem. by rewrite Hattr. }
  unfold _discover_endpoints. unfold_m. rewrite Hget, Hs. simpl.
  destruct rel; simpl in *; rewrite ?Hhdr, ?Hrel; simpl;
    rewrite ?orb_true_r; simpl;
    repeat match goal with
           | |- context [and_href ?l] =>
               let H := fresh in
               destruct (and_href l) eqn:H;
               [apply and_href_raises in H; subst |]; simpl
           | |- context [if ?b then _ else _] => destruct b; simpl
           end;
    try done; congruence.
Qed.

Lemma X13_link_without_href_raises_witness :
  let env :=
    Fixture.make_env (Fixture.ok "<html>" ∅) (Fixture.ok "x=1" ∅)
      [("token_endpoint", mkTag {[ "rel" := "token_endpoint" ]})] in
  (_discover_endpoints env (Some "http://example.com") Fixture.world0).1
    = inl (KeyError "href").
Proof.
  intros env.
  apply (X13_link_without_href_raises env (Some "http://example.com")
           Fixture.world0 (mkResponse 200 "<html>" ∅) RelToken
           (mkTag {[ "rel" := "token_endpoint" ]}));
    [reflexivity | reflexivity | reflexivity | reflexivity
    | vm_compute; reflexivity].
Defined.

(** X14. When the Link headers of a 200 page name a non-empty URL for
    all three relations, discovery returns exactly those three URLs and
    never looks at the page body: the result is the same for every HTML
    parser, and no [KeyError] is possible. *)
Theorem X14_headers_alone_suffice (env : Env) (me : option string)
    (w : World) (r : Response) :
  requests_get env (http_log w) me = inr r ->
  status_code r = 200 ->
  (forall rel, truthy (header_link r (rel_name rel)) = true) ->
  (_discover_endpoints env me w).1 =
    inr (header_link r "authorization_endpoint",
         header_link r "token_endpoint",
         header_link r "micropub").
Proof.
  intros Hget Hs Hall.
  pose proof (Hall RelAuthorization) as Ha.
  pose proof (Hall RelToken) as Ht.
  pose proof (Hall RelMicropub) as Hm. simpl in *.
  unfold _discover_endpoints. unfold_m. rewrite Hget, Hs. simpl.
  by rewrite Ha, Ht, Hm.
Qed.

Lemma X14_headers_alone_suffice_witness :
  let env :=
    Fixture.make_env (Fixture.ok "<html>" Fixture.full_headers)
      (Fixture.ok "x=1" ∅)
      [("micropub", mkTag {[ "rel" := "micropub" ]})] in
  (_discover_endpoints env (Some "http://example.com") Fixture.world0).1 =
    inr (Some "https://auth.example/auth",
         Some "https://auth.example/token",
         Some "https://example.com/micropub").
Proof.
  intros env.
  apply (X14_headers_alone_suffice env (Some "http://example.com")
           Fixture.world0 (mkResponse 200 "<html>" Fixture.full_headers));
    [reflexivity | reflexivity |].
  intros rel. destruct rel; vm_compute; reflexivity.
Defined.

(** *** Initiation and the callback together *)

Lemma unwrap_app_sep (tok st : string) :
  PyStr.contains "|" tok = false ->
  unwrap_state (Some (tok +:+ "|" +:+ st)) = inr (Some tok, Some st).
Proof.
  intros Htok. unfold unwrap_state.
  change (tok +:+ "|" +:+ st) with (tok +:+ String "|" st).
  rewrite truthy_app_sep, contains_app_sep. simpl.
  unfold PyStr.split1. by rewrite cut_app_sep.
Qed.

Lemma wrap_state_or_empty (tok : string) (st : option string) :
  wrap_state tok st = tok +:+ "|" +:+ default "" (py_or st (Some "")).
Proof. reflexivity. Qed.

Lemma mismatch_response (env : Env) (request : Request) (w : World)
    (tok : string) (st : option string) :
  unwrap_state (args_get (args request) "state") = inr (Some tok, st) ->
  tok <> "" ->
  session w !! CSRF_KEY <> Some tok ->
  let r := AuthResponse_init None None None st None
             (Some "mismatched CSRF token") in
  _handle_authenticate_response env request w = (inr r, w) /\
  _handle_authorize_response env request w = (inr r, w).
Proof.
  intros Hu Hne Hs r.
  unfold _handle_authenticate_response, _handle_authorize_response.
  unfold_m. rewrite Hu. simpl.
  apply String.eqb_neq in Hne. rewrite Hne. simpl.
  rewrite py_ne_diff by congruence. done.
Qed.

Lemma start_indieauth_session_returns (env : Env) (me redirect_url : string)
    (state scope : option string) (w w' : World) (url : string) :
  _start_indieauth env me redirect_url state scope w = (inr url, w') ->
  session w' = <[CSRF_KEY := uuid4_hex env (uuid_drawn w)]> (session w).
Proof.
  intros H.
  pose proof (start_indieauth_session env me redirect_url state scope w)
    as Hs.
  by rewrite H in Hs.
Qed.

(** X15. A callback that brings back the state parameter initiation put
    in its redirect passes CSRF validation in the session initiation
    left behind, provided the drawn token is non-empty and has no ['|'].
    The application state comes back as given, except that an absent
    one comes back as the empty string. *)
Theorem X15_issued_state_passes_csrf (env : Env) (me redirect_url : string)
    (state scope : option string) (w w' : World) (url : string)
    (request : Request) :
  _start_indieauth env me redirect_url state scope w = (inr url, w') ->
  uuid4_hex env (uuid_drawn w) <> "" ->
  PyStr.contains "|" (uuid4_hex env (uuid_drawn w)) = false ->
  args_get (args request) "state"
    = Some (wrap_state (uuid4_hex env (uuid_drawn w)) state) ->
  csrf_passes request w' (uuid4_hex env (uuid_drawn w))
    (Some (match state with Some s => s | None => "" end)).
Proof.
  intros Hstart Hne Hbar Hstate. unfold csrf_passes.
  rewrite Hstate, wrap_state_or_empty, (unwrap_app_sep _ _ Hbar).
  rewrite (start_indieauth_session_returns _ _ _ _ _ _ _ _ Hstart).
  rewrite lookup_insert_eq. repeat split; [| done].
  do 3 f_equal. unfold py_or, truthy.
  destruct state as [s|]; [| done]. by destruct (String.eqb_spec s "").
Qed.

Lemma X15_issued_state_passes_csrf_witness :
  let env := Fixture.make_env (Fixture.ok "<html>" ∅) (Fixture.ok "x=1" ∅) [] in
  let w' := (_start_indieauth env "example.com" "https://client.example/cb"
               None None Fixture.world0).2 in
  csrf_passes
    (mkRequest [("code", "c0de"); ("state", Fixture.token +:+ "|")] "cb")
    w' Fixture.token (Some "").
Proof.
  intros env w'. subst w'.
  eapply (X15_issued_state_passes_csrf env "example.com"
            "https://client.example/cb" None None Fixture.world0);
    [vm_compute; reflexivity | vm_compute; discriminate
    | vm_compute; reflexivity | vm_compute; reflexivity].
Defined.

(** X16. Starting a new flow invalidates the previous one: once
    initiation has returned, a callback whose state carries any
    non-empty token other than the one just drawn is answered by both
    resolvers with "mismatched CSRF token", and nothing is sent. *)
Theorem X16_new_flow_invalidates_old_token (env : Env)
    (me redirect_url : string) (state scope : option string)
    (w w' : World) (url : string) (request : Request)
    (old : string) (st : option string) :
  _start_indieauth env me redirect_url state scope w = (inr url, w') ->
  unwrap_state (args_get (args request) "state") = inr (Some old, st) ->
  old <> "" ->
  old <> uuid4_hex env (uuid_drawn w) ->
  let r := AuthResponse_init None None None st None
             (Some "mismatched CSRF token") in
  _handle_authenticate_response env request w' = (inr r, w') /\
  _handle_authorize_response env request w' = (inr r, w').
Proof.
  intros Hstart Hu Hne Hold r.
  apply (mismatch_response env request w' old st); [done | done |].
  rewrite (start_indieauth_session_returns _ _ _ _ _ _ _ _ Hstart).
  rewrite lookup_insert_eq. congruence.
Qed.

(** The session holds the token of an earlier flow; a new flow starts;
    the callback of the earlier flow arrives. *)
Lemma X16_new_flow_invalidates_old_token_witness :
  let env := Fixture.make_env (Fixture.ok "<html>" ∅) (Fixture.ok "x=1" ∅) [] in
  let w := mkWorld {[ CSRF_KEY := "feedbeef" ]} [] 0 in
  let w' := (_start_indieauth env "example.com" "https://client.example/cb"
               None None w).2 in
  _handle_authorize_response env (Fixture.callback "feedbeef") w' =
    (inr (AuthResponse_init None None None (Some "/home") None
            (Some "mismatched CSRF token")), w').
Proof.
  intros env w w'. subst w'.
  eapply (X16_new_flow_invalidates_old_token env "example.com"
            "https://client.example/cb" None None w);
    [vm_compute; reflexivity | vm_compute; reflexivity
    | discriminate | vm_compute; discriminate].
Defined.

(** X17. When discovery returns, initiation returns too: it draws one
    token, and redirects to the discovered authorization endpoint (or
    the default) followed by ['?'] and the encoding of [me] (normalised),
    [client_id], [redirect_uri] and [state], in that order; [scope]
    follows only when it is given and non-empty. *)
Theorem X17_redirect_target (env : Env) (me redirect_url : string)
    (state scope : option string) (w w1 : World) (a t m : option string) :
  _discover_endpoints env (Some (normalize_me me)) w = (inr (a, t, m), w1) ->
  let tok := uuid4_hex env (uuid_drawn w) in
  let base := redirect_params env (normalize_me me) redirect_url tok state in
  exists w',
    _start_indieauth env me redirect_url state scope w
      = (inr (auth_url_or_default a +:+ "?" +:+
              urlencode env
                (match scope with
                 | Some (String c s) =>
                     (base ++ [("scope", Some (String c s))])%list
                 | _ => base
                 end)), w') /\
    uuid_drawn w' = S (uuid_drawn w).
Proof.
  intros Hdisc tok base. unfold _start_indieauth. unfold_m.
  rewrite Hdisc. simpl.
  pose proof (discover_world env (Some (normalize_me me)) w) as Hw.
  rewrite Hdisc in Hw. simpl in Hw. subst w1. simpl.
  eexists. split; [by destruct scope as [[|c s]|] | reflexivity].
Qed.

Lemma X17_redirect_target_witness :
  let env :=
    Fixture.make_env (Fixture.ok "<html>" Fixture.full_headers)
      (Fixture.ok "x=1" ∅) [] in
  exists w',
    _start_indieauth env "example.com" "https://client.example/cb"
      (Some "/home") (Some "") Fixture.world0
    = (inr ("https://auth.example/auth?me=http://example.com"
            +:+ "&client_id=https://client.example/"
            +:+ "&redirect_uri=https://client.example/cb"
            +:+ "&state=0123456789abcdef0123456789abcdef|/home"), w') /\
    uuid_drawn w' = 2%nat.
Proof.
  intros env.
  apply (X17_redirect_target env "example.com" "https://client.example/cb"
           (Some "/home") (Some "") Fixture.world0
           (log_call (GET (Some "http://example.com")) Fixture.world0)
           (Some "https://auth.example/auth")
           (Some "https://auth.example/token")
           (Some "https://example.com/micropub")).
  vm_compute; reflexivity.
Defined.

(** X18. A discovery that raises aborts initiation with the same
    exception before any token is drawn: the session and the token
    counter are as before, and the only trace is the logged GET. *)
Theorem X18_failed_discovery_aborts_initiation (env : Env)
    (me redirect_url : string) (state scope : option string)
    (w : World) (e : PyExc) :
  (_discover_endpoints env (Some (normalize_me me)) w).1 = inl e ->
  _start_indieauth env me redirect_url state scope w
    = (inl e, log_call (GET (Some (normalize_me me))) w).
Proof.
  intros He. unfold _start_indieauth. unfold_m.
  pose proof (discover_world env (Some (normalize_me me)) w) as Hw.
  destruct (_discover_endpoints env (Some (normalize_me me)) w)
    as [r w1]. simpl in *. by subst.
Qed.

Lemma X18_failed_discovery_aborts_initiation_witness :
  let env :=
    Fixture.make_env (inl (TransportError "connection refused"))
      (Fixture.ok "x=1" ∅) [] in
  _start_indieauth env "example.com" "https://client.example/cb"
    None None Fixture.world0
    = (inl (TransportError "connection refused"),
       log_call (GET (Some "http://example.com")) Fixture.world0).
Proof.
  intros env.
  apply (X18_failed_discovery_aborts_initiation env "example.com"
           "https://client.example/cb" None None Fixture.world0).
  vm_compute; reflexivity.
Defined.

(** *** The entry points *)

Lemma start_indieauth_state_ext (env : Env) (me redirect_url : string)
    (st st' scope : option string) (w : World) :
  (forall tok, wrap_state tok st = wrap_state tok st') ->
  _start_indieauth env me redirect_url st scope w
    = _start_indieauth env me redirect_url st' scope w.
Proof.
  intros Hwrap. unfold _start_indieauth. unfold_m.
  destruct (_discover_endpoints env (Some (normalize_me me)) w)
    as [[e|[[a t] m]] w1]; [done |]. simpl. by rewrite Hwrap.
Qed.

Lemma wrap_state_falsy (tok : string) (st : option string) :
  truthy st = false -> wrap_state tok st = wrap_state tok None.
Proof. intros H. unfold wrap_state, py_or. by rewrite H. Qed.

(** X19. In [authenticate] and [authorize] the deprecated [next_url]
    stands in for [state] only when [state] is absent or empty: a
    non-empty [state] makes [next_url] irrelevant, and with an absent or
    empty [state] the call behaves as if [next_url] had been passed as
    [state]. *)
Theorem X19_next_url_stands_in_for_state (env : Env) (me : string)
    (state next_url scope : option string) (w : World) :
  (truthy state = true ->
   authenticate env me state next_url w = authenticate env me state None w /\
   authorize env me state next_url scope w
     = authorize env me state None scope w) /\
  (truthy state = false ->
   authenticate env me state next_url w
     = authenticate env me next_url None w /\
   authorize env me state next_url scope w
     = authorize env me next_url None scope w).
Proof.
  unfold authenticate, authorize, py_or. split; intros Hst; rewrite Hst.
  - done.
  - unfold_m.
    destruct (url_for_opt env (flask_endpoint_for_function env
                                 AuthenticatedView) w) as [[e|u] w1];
      destruct (url_for_opt env (flask_endpoint_for_function env
                                   AuthorizedView) w) as [[e'|u'] w2];
      repeat split; try done;
      apply start_indieauth_state_ext; intros tok;
      destruct (truthy next_url) eqn:Hn; try done;
      by apply wrap_state_falsy.
Qed.

Lemma X19_next_url_stands_in_for_state_witness :
  let env := Fixture.make_env (Fixture.ok "<html>" ∅) (Fixture.ok "x=1" ∅) [] in
  authenticate env "example.com" (Some "") (Some "/back") Fixture.world0
    = authenticate env "example.com" (Some "/back") None Fixture.world0.
Proof.
  intros env.
  apply (proj2 (X19_next_url_stands_in_for_state env "example.com"
                  (Some "") (Some "/back") None Fixture.world0)).
  reflexivity.
Defined.

(** X20. [flask_endpoint_for_function] returns the first endpoint, in
    iteration order, whose view function is the one asked for, and
    [None] exactly when no endpoint has that view function. *)
Theorem X20_endpoint_lookup (env : Env) (func : ViewFunc) :
  (forall e, flask_endpoint_for_function env func = Some e ->
     exists before after,
       view_functions env = (before ++ (e, func) :: after)%list /\
       Forall (fun p => p.2 <> func) before) /\
  (flask_endpoint_for_function env func = None <->
   Forall (fun p => p.2 <> func) (view_functions env)).
Proof.
  unfold flask_endpoint_for_function.
  induction (view_functions env) as [|[k v] items [IHs IHn]]; simpl.
  - split; [done |]. by split.
  - destruct (decide (func = v)) as [-> | Hne].
    + rewrite bool_decide_true by done. split.
      * intros e [= <-]. by exists [], items.
      * split; [done |]. by intros [? _]%Forall_cons.
    + rewrite bool_decide_false by done. split.
      * intros e He. destruct (IHs e He) as (before & after & -> & Hb).
        exists ((k, v) :: before), after. split; [done |].
        apply Forall_cons. split; [simpl; congruence | done].
      * rewrite IHn, Forall_cons. simpl.
        split; [by split | by intros [_ ?]].
Qed.

Lemma X20_endpoint_lookup_witness :
  let env := Fixture.make_env (Fixture.ok "" ∅) (Fixture.ok "" ∅) [] in
  exists before after,
    view_functions env
      = (before ++ ("micropub_callback", AuthorizedView) :: after)%list /\
    Forall (fun p => p.2 <> AuthorizedView) before.
Proof.
  intros env.
  apply (proj1 (X20_endpoint_lookup env AuthorizedView)).
  reflexivity.
Defined.

(** *** Construction of the client *)

(** X21. A client built with an application always has a client
    identifier: the one given when it is non-empty, the application's
    name otherwise. A client built without an application keeps what it
    was given, [None] included. *)
Theorem X21_client_id_at_construction (a : MicropubClient.App)
    (cid : option string) :
  MicropubClient.client_id (MicropubClient.__init__ (Some a) cid)
    = Some (match cid with
            | Some (String c s) => String c s
            | _ => MicropubClient.name a
            end) /\
  MicropubClient.app (MicropubClient.__init__ (Some a) cid) = Some a /\
  MicropubClient.__init__ None cid = MicropubClient.mk None cid.
Proof.
  unfold MicropubClient.__init__, MicropubClient.init_app. simpl.
  by destruct cid as [[|c s]|].
Qed.

(** X22. [init_app] never replaces a non-empty client identifier, never
    stores the application, and otherwise prefers its own non-empty
    argument to the application's name. So the identifier given to the
    constructor wins over the one given to [init_app], and a second
    [init_app] changes nothing once an identifier is set. *)
Theorem X22_init_app_keeps_client_id (self : MicropubClient.t)
    (a a' : MicropubClient.App) (cid cid' : option string) :
  MicropubClient.app (MicropubClient.init_app self a cid)
    = MicropubClient.app self /\
  (truthy (MicropubClient.client_id self) = true ->
   MicropubClient.init_app self a cid = self) /\
  (truthy (MicropubClient.client_id self) = false ->
   MicropubClient.client_id (MicropubClient.init_app self a cid)
     = if truthy cid then cid else Some (MicropubClient.name a)) /\
  (truthy (MicropubClient.client_id
             (MicropubClient.init_app self a cid)) = true ->
   MicropubClient.init_app (MicropubClient.init_app self a cid) a' cid'
     = MicropubClient.init_app self a cid).
Proof.
  unfold MicropubClient.init_app.
  destruct (truthy (MicropubClient.client_id self)) eqn:Hs;
    destruct (truthy cid) eqn:Hc; simpl; rewrite ?Hs, ?Hc;
    repeat split; try done; by intros ->.
Qed.

Lemma X22_init_app_keeps_client_id_witness :
  let self := MicropubClient.__init__ None (Some "https://client.example/") in
  MicropubClient.init_app self (MicropubClient.mkApp "blog")
    (Some "https://other.example/") = self.
Proof.
  intros self.
  apply (proj1 (proj2 (X22_init_app_keeps_client_id self
                         (MicropubClient.mkApp "blog")
                         (MicropubClient.mkApp "blog")
                         (Some "https://other.example/") None))).
  reflexivity.
Defined.
